(** * Dukascopy tick data fetcher: cache reconciliation and export

    A shallow embedding of [src/dukascopy_tick_data_fetcher.py] (class
    [Dukascopy_Tick_Data_Fetcher]) and the properties of its cache
    reconciler and export loop.

    Conventions of the embedding:
    - a pandas [Timestamp] is its [value]: nanoseconds since the Unix
      epoch, as [Z]; all frames handled before [tz_convert] are indexed in
      UTC;
    - a [DataFrame] is the list of its rows in row order, a row being the
      index label together with the four float64 columns;
    - the file system is a finite map from path strings to file contents,
      a file being a CSV table or bytes that [pd.read_csv] rejects;
      directories are not represented, so [os.makedirs] has no effect;
    - an exception is a result of its own ([Raise]); the world reached
      when it is raised is kept;
    - [print] appends a message to the captured standard output;
    - the remote source ([dukascopy_python.fetch]) and the timezone
      database ([pytz.timezone]) are parameters of the development. *)

From Stdlib Require Import ZArith List Lia Bool String Ascii.
From Stdlib Require Import DecimalString DecimalZ PrimFloat.
From Stdlib Require Import Sorting.Sorted Sorting.Permutation.
From stdpp Require Import gmap strings list.

Local Open Scope string_scope.
Local Open Scope list_scope.
Local Open Scope Z_scope.

(** ** Time *)

Module Time.

(** Nanoseconds since 1970-01-01T00:00:00Z. *)
Definition Timestamp := Z.

Definition NS_PER_SECOND : Z := 1000000000.
Definition NS_PER_DAY : Z := 86400 * NS_PER_SECOND.

(** [Timestamp.floor('D')] of a UTC timestamp. *)
Definition floor_D (t : Timestamp) : Timestamp := t - t mod NS_PER_DAY.

(** Day number (days since the epoch) and time within the day. *)
Definition day_number (t : Timestamp) : Z := t / NS_PER_DAY.
Definition time_of_day (t : Timestamp) : Z := t mod NS_PER_DAY.

(** Proleptic Gregorian calendar: the civil date of a day number. *)
Definition civil_from_days (z0 : Z) : Z * Z * Z :=
  let z := z0 + 719468 in
  let era := z / 146097 in
  let doe := z - era * 146097 in
  let yoe := (doe - doe / 1460 + doe / 36524 - doe / 146096) / 365 in
  let y := yoe + era * 400 in
  let doy := doe - (365 * yoe + yoe / 4 - yoe / 100) in
  let mp := (5 * doy + 2) / 153 in
  let d := doy - (153 * mp + 2) / 5 + 1 in
  let m := if mp <? 10 then mp + 3 else mp - 9 in
  (if m <=? 2 then y + 1 else y, m, d).

(** The day number of a civil date. *)
Definition days_from_civil (y0 m d : Z) : Z :=
  let y := if m <=? 2 then y0 - 1 else y0 in
  let era := y / 400 in
  let yoe := y - era * 400 in
  let mp := if 2 <? m then m - 3 else m + 9 in
  let doy := (153 * mp + 2) / 5 + d - 1 in
  let doe := yoe * 365 + yoe / 4 - yoe / 100 + doy in
  era * 146097 + doe - 719468.

(** The pieces of [civil_from_days], as functions of the day of the era (a
    day number within a 400-year cycle that starts on a 1st of March). *)
Definition year_of_era (doe : Z) : Z :=
  (doe - doe / 1460 + doe / 36524 - doe / 146096) / 365.

Definition day_of_year (doe : Z) : Z :=
  doe - (365 * year_of_era doe + year_of_era doe / 4 - year_of_era doe / 100).

Definition month_from_march (doe : Z) : Z := (5 * day_of_year doe + 2) / 153.

Definition month_of_era (doe : Z) : Z :=
  year_of_era doe * 12 + month_from_march doe.

Definition year (t : Timestamp) : Z := (civil_from_days (day_number t)).1.1.
Definition month (t : Timestamp) : Z := (civil_from_days (day_number t)).1.2.
Definition day (t : Timestamp) : Z := (civil_from_days (day_number t)).2.

Definition is_leap (y : Z) : bool :=
  ((y mod 4 =? 0) && negb (y mod 100 =? 0)) || (y mod 400 =? 0).

Definition days_in_month (y m : Z) : Z :=
  if m =? 2 then (if is_leap y then 29 else 28)
  else if (m =? 4) || (m =? 6) || (m =? 9) || (m =? 11) then 30
  else 31.

(** [t - relativedelta(months=n)]: the month is moved back [n] months, the
    day of the month is clipped to the length of the resulting month and
    the time of day is kept. *)
Definition minus_months (t : Timestamp) (n : Z) : Timestamp :=
  let total := year t * 12 + (month t - 1) - n in
  let y := total / 12 in
  let m := total mod 12 + 1 in
  let d := Z.min (day t) (days_in_month y m) in
  days_from_civil y m d * NS_PER_DAY + time_of_day t.

(** [t.replace(day=1, hour=0, minute=0, second=0, microsecond=0)] reaches
    the first instant of the month of [t]; only its year and month are used
    by the month range below. *)
Definition month_index (t : Timestamp) : Z := year t * 12 + (month t - 1).

(** [pd.date_range(month_start, end_date, freq='MS')] with [month_start]
    the first instant of the month of [start_date]: the (year, month) of
    every month start from the month of [start_date] up to [end_date]. *)
Definition month_starts (start_date end_date : Timestamp) : list (Z * Z) :=
  let first := month_index start_date in
  let last := month_index end_date in
  map (fun k : nat => let i := first + Z.of_nat k in (i / 12, i mod 12 + 1))
      (seq 0 (Z.to_nat (last - first + 1))).

End Time.

(** ** Strings and paths *)

Module Path.

(** [str(n)] for an integer. *)
Definition str (n : Z) : string := NilEmpty.string_of_int (Z.to_int n).

(** [f"{n:02d}"]: zero padding up to two characters; only the one-digit
    numbers 0..9 are shorter than that. *)
Definition fmt02d (n : Z) : string :=
  if (0 <=? n) && (n <? 10) then "0" +:+ str n else str n.

(** [s.replace('/', '_')]. *)
Fixpoint replace_slash (s : string) : string :=
  match s with
  | EmptyString => EmptyString
  | String c r =>
      String (if Ascii.eqb c "/" then "_"%char else c) (replace_slash r)
  end.

Definition startswith_sep (s : string) : bool :=
  match s with
  | String c _ => Ascii.eqb c "/"
  | EmptyString => false
  end.

Fixpoint endswith_sep (s : string) : bool :=
  match s with
  | EmptyString => false
  | String c EmptyString => Ascii.eqb c "/"
  | String _ r => endswith_sep r
  end.

Definition is_empty (s : string) : bool :=
  match s with EmptyString => true | _ => false end.

(** [os.path.join(a, b)] (posixpath). *)
Definition join (a b : string) : string :=
  if startswith_sep b then b
  else if is_empty a || endswith_sep a then a +:+ b
  else a +:+ "/" +:+ b.

(** What [join] puts in front of a relative second component. *)
Definition as_dir (a : string) : string :=
  if is_empty a || endswith_sep a then a else a +:+ "/".

Fixpoint has_char (c : ascii) (s : string) : bool :=
  match s with
  | EmptyString => false
  | String c' r => Ascii.eqb c' c || has_char c r
  end.

End Path.

(** ** Data frames *)

Module Frame.

(** One tick: the four float64 columns of a row. *)
Record Tick := mkTick {
  bidPrice : float;
  askPrice : float;
  bidVolume : float;
  askVolume : float
}.

(** A row is its index label (the timestamp) and its columns. *)
Definition Row : Type := Z * Tick.

Definition DataFrame : Type := list Row.

Definition ts (r : Row) : Z := r.1.

(** [df.index]. *)
Definition index (df : DataFrame) : list Z := map ts df.

(** [df.empty]. *)
Definition empty (df : DataFrame) : bool :=
  match df with [] => true | _ => false end.

(** [df.index.max()], defined for a frame that is not empty. *)
Definition index_max (df : DataFrame) : option Z :=
  match df with
  | [] => None
  | r :: rest => Some (fold_left Z.max (index rest) (ts r))
  end.

Definition mem (t : Z) (l : list Z) : bool := existsb (Z.eqb t) l.

(** [idx.duplicated(keep='first')]: a label is marked when it already
    occurred at an earlier position. *)
Fixpoint duplicated_first_from (seen : list Z) (idx : list Z) : list bool :=
  match idx with
  | [] => []
  | t :: rest => mem t seen :: duplicated_first_from (t :: seen) rest
  end.

Definition duplicated_first (idx : list Z) : list bool :=
  duplicated_first_from [] idx.

(** [idx.duplicated(keep='last')]: a label is marked when it occurs again
    at a later position. *)
Fixpoint duplicated_last (idx : list Z) : list bool :=
  match idx with
  | [] => []
  | t :: rest => mem t rest :: duplicated_last rest
  end.

(** [~mask]. *)
Definition mask_not (mask : list bool) : list bool := map negb mask.

(** [df[mask]]: the rows at the positions where the mask holds. *)
Fixpoint select (mask : list bool) (df : DataFrame) : DataFrame :=
  match mask, df with
  | b :: mask', r :: df' => if b then r :: select mask' df' else select mask' df'
  | _, _ => []
  end.

(** [df[df.index < t]]. *)
Definition before (t : Z) (df : DataFrame) : DataFrame :=
  select (map (fun i => i <? t) (index df)) df.

(** [df[~df.index.duplicated(keep='first')]] and the same with
    [keep='last']. *)
Definition keep_first_from (seen : list Z) (df : DataFrame) : DataFrame :=
  select (mask_not (duplicated_first_from seen (index df))) df.

Definition drop_duplicates_first (df : DataFrame) : DataFrame :=
  select (mask_not (duplicated_first (index df))) df.

Definition drop_duplicates_last (df : DataFrame) : DataFrame :=
  select (mask_not (duplicated_last (index df))) df.

(** Sorting by a boolean order, by insertion; rows that compare equal keep
    their relative order. *)
Section Sort.
Context {A : Type} (leb : A -> A -> bool).

Fixpoint insert_by (x : A) (l : list A) : list A :=
  match l with
  | [] => [x]
  | y :: l' => if leb x y then x :: l else y :: insert_by x l'
  end.

Definition sort_by (l : list A) : list A := fold_right insert_by [] l.
End Sort.

Definition ts_leb (a b : Row) : bool := ts a <=? ts b.

(** [df.sort_index()]: ascending by index label. *)
Definition sort_index (df : DataFrame) : DataFrame := sort_by ts_leb df.

(** [df.loc[a:b]] on a frame whose index is sorted: the label slice runs
    from the first position whose label is at least [a] up to and
    including the last position whose label is at most [b]. *)
Fixpoint skip_below (a : Z) (df : DataFrame) : DataFrame :=
  match df with
  | [] => []
  | r :: rest => if ts r <? a then skip_below a rest else df
  end.

Fixpoint take_upto (b : Z) (df : DataFrame) : DataFrame :=
  match df with
  | [] => []
  | r :: rest => if ts r <=? b then r :: take_upto b rest else []
  end.

Definition loc (a b : Z) (df : DataFrame) : DataFrame :=
  take_upto b (skip_below a df).

(** [pd.concat(dfs)]. *)
Definition concat (dfs : list DataFrame) : DataFrame := List.concat dfs.

(** [df.groupby([df.index.year, df.index.month])]: one group per distinct
    (year, month) of the index, in ascending key order, each holding the
    rows of that month in row order. *)
Definition year_month (r : Row) : Z * Z := (Time.year (ts r), Time.month (ts r)).

Definition key_eqb (a b : Z * Z) : bool := (a.1 =? b.1) && (a.2 =? b.2).

Definition key_leb (a b : Z * Z) : bool :=
  (a.1 <? b.1) || ((a.1 =? b.1) && (a.2 <=? b.2)).

Definition group_keys (df : DataFrame) : list (Z * Z) :=
  sort_by key_leb (remove_dups (map year_month df)).

Definition group (k : Z * Z) (df : DataFrame) : DataFrame :=
  List.filter (fun r => key_eqb (year_month r) k) df.

Definition groupby_year_month (df : DataFrame) : list ((Z * Z) * DataFrame) :=
  map (fun k => (k, group k df)) (group_keys df).

(** The first and the last row carrying a given label. *)
Definition first_at (t : Z) (df : DataFrame) : option Row :=
  List.find (fun r => ts r =? t) df.

Definition last_at (t : Z) (df : DataFrame) : option Row :=
  first_at t (rev df).

(** Index labels strictly ascending: sorted, no label twice. *)
Definition ascending (df : DataFrame) : Prop :=
  StronglySorted (fun a b => ts a < ts b) df.

(** Index labels weakly ascending: what [sort_index] establishes on any
    frame. *)
Definition sorted (df : DataFrame) : Prop :=
  StronglySorted (fun a b => ts a <= ts b) df.

End Frame.

(** ** The world the fetcher runs in *)

Import Frame.

(** What a call produces: a value, or a raised exception with its text. *)
Inductive outcome (A : Type) : Type :=
  | Ok (a : A)
  | Raise (e : string).
Arguments Ok {A} a.
Arguments Raise {A} e.

(** A file is a CSV table, rendered in some timezone, or bytes that
    [pd.read_csv] cannot parse. *)
Inductive file : Type :=
  | Csv (tz : string) (rows : DataFrame)
  | Garbage.

Definition UTC : string := "UTC".

(** [pd.read_csv(path, index_col='timestamp', date_format='ISO8601')]. *)
Definition read_csv (f : file) : outcome DataFrame :=
  match f with
  | Csv _ rows => Ok rows
  | Garbage => Raise "ParserError"
  end.

(** The arguments of the remote fetch. *)
Inductive Interval : Type := INTERVAL_TICK.
Inductive OfferSide : Type := OFFER_SIDE_BID.

Record Request := mkRequest {
  req_symbol : string;
  req_interval : Interval;
  req_side : OfferSide;
  req_start : Z;
  req_end : Z
}.

(** The lines the program prints, one constructor per [print]. *)
Inductive Message : Type :=
  | UsingBrokerTimezone (tz : string)
  | RequiredDataRange (start_date end_date : Z)
  | Separator
  | ProcessingSymbol (dukascopy_symbol target_symbol : string)
  | FoundLocalDataUpTo (t : Z)
  | NoLocalDataFound
  | FetchingNewData (fetch_start_date end_date : Z)
  | ErrorFetching (dukascopy_symbol e : string)
  | LocalDataUpToDate
  | NoDataAvailable (dukascopy_symbol : string)
  | FinalDatasetEmpty (dukascopy_symbol : string)
  | SavedProcessed (output_path : string)
  | FirstTimestamp (t : option Z)
  | LastTimestamp (t : option Z)
  | WarningCouldNotLoad (file_path e : string)
  | SavedRawCache (symbol_path : string)
  | DefaultTimezoneSet (timezone_name : string)
  | UnknownTimezone (timezone_name : string).

Record World := mkWorld {
  files : gmap string file;
  stdout : list Message;
  requests : list Request;
  utc_now : Z;
  local_now : Z
}.

(** The world with another standard output and everything else as it
    is. *)
Definition with_stdout (out : list Message) (w : World) : World :=
  mkWorld (files w) out (requests w) (utc_now w) (local_now w).

Definition print (m : Message) (w : World) : World :=
  with_stdout (stdout w ++ [m]) w.

(** The world with other files and everything else as it is. *)
Definition with_files (fs : gmap string file) (w : World) : World :=
  mkWorld fs (stdout w) (requests w) (utc_now w) (local_now w).

Definition write (path : string) (f : file) (w : World) : World :=
  with_files (<[path := f]> (files w)) w.

Definition sent (r : Request) (w : World) : World :=
  mkWorld (files w) (stdout w) (requests w ++ [r]) (utc_now w) (local_now w).

(** [later] is a world that [earlier] can grow into: the clocks show the
    same time, output and requests were only appended, and every file that
    existed still exists. *)
Definition grows (earlier later : World) : Prop :=
  utc_now later = utc_now earlier /\
  local_now later = local_now earlier /\
  (exists out, stdout later = stdout earlier ++ out) /\
  (exists new, requests later = requests earlier ++ new) /\
  forall p, is_Some (files earlier !! p) -> is_Some (files later !! p).

(** [df.to_csv(path)] of a frame indexed in UTC. *)
Definition to_csv (path : string) (df : DataFrame) (w : World) : World :=
  write path (Csv UTC df) w.

(** The instance: its only field is the default broker timezone. *)
Record Dukascopy_Tick_Data_Fetcher := mkFetcher { broker_timezone : string }.

(** [__init__]. *)
Definition __init__ : Dukascopy_Tick_Data_Fetcher := mkFetcher "Europe/Helsinki".

(** The cache partition file of a (year, month) under [symbol_path], as
    [_load_local_data] builds it, with one three-argument join ... *)
Definition load_file_path (symbol_path : string) (year month : Z) : string :=
  Path.join (Path.join symbol_path (Path.str year))
            (Path.fmt02d month +:+ ".csv").

(** ... and as [_save_local_data] builds it, through [month_dir]. *)
Definition save_file_path (symbol_path : string) (year month : Z) : string :=
  let month_dir := Path.join symbol_path (Path.str year) in
  Path.join month_dir (Path.fmt02d month +:+ ".csv").

(** [symbol_path] of [get]. *)
Definition symbol_path_of (output_dir dukascopy_symbol : string) : string :=
  let raw_data_dir := Path.join output_dir "raw_dukascopy_data" in
  Path.join raw_data_dir (Path.replace_slash dukascopy_symbol).

(** The cache layout in the words of the specification:
    [<output_dir>/raw_cache/<symbol>/<year>/<month:2-digit>.csv]. *)
Definition spec_cache_path (output_dir symbol : string) (year month : Z)
  : string :=
  output_dir +:+ "/raw_cache/" +:+ Path.replace_slash symbol +:+ "/"
    +:+ Path.str year +:+ "/" +:+ Path.fmt02d month +:+ ".csv".

(** [datetime.now().strftime('%Y-%m-%d')]. *)
Definition today_str (w : World) : string :=
  let t := local_now w in
  Path.str (Time.year t) +:+ "-" +:+ Path.fmt02d (Time.month t) +:+ "-"
    +:+ Path.fmt02d (Time.day t).

(** ** The operations of [Dukascopy_Tick_Data_Fetcher] *)

Section Operations.

(** [dukascopy_python.fetch(symbol, interval, offer_side, start, end)]:
    the remote source, which returns a frame or raises. *)
Variable fetch : string -> Interval -> OfferSide -> Z -> Z -> outcome DataFrame.

(** [pytz.timezone(name)] succeeds exactly on the names the timezone
    database knows, and raises [UnknownTimeZoneError] on the others. *)
Variable known_timezone : string -> bool.

(** *** [_load_local_data] *)

(** One iteration of the loop over the month starts. *)
Definition load_month (symbol_path : string)
    (acc : list DataFrame * World) (dt : Z * Z) : list DataFrame * World :=
  let '(dfs, w) := acc in
  let file_path := load_file_path symbol_path dt.1 dt.2 in
  match files w !! file_path with
  | Some f =>
      match read_csv f with
      | Ok df => if negb (empty df) then (dfs ++ [df], w) else (dfs, w)
      | Raise e => (dfs, print (WarningCouldNotLoad file_path e) w)
      end
  | None => (dfs, w)
  end.

Definition _load_local_data (symbol_path : string)
    (start_date end_date : Z) (w : World) : DataFrame * World :=
  let date_range := Time.month_starts start_date end_date in
  let '(dfs, w1) := fold_left (load_month symbol_path) date_range ([], w) in
  match dfs with
  | [] => ([], w1)
  | _ =>
      let combined_df := sort_index (concat dfs) in
      (loc start_date end_date combined_df, w1)
  end.

(** *** [_save_local_data] *)

(** [existing_df] merged with [group_df] as the loop body does it. *)
Definition merge_partition (existing_df group_df : DataFrame) : DataFrame :=
  let combined_df := concat [existing_df; group_df] in
  let combined_df := drop_duplicates_last combined_df in
  sort_index combined_df.

(** One iteration of the loop over the groups. [pd.read_csv] may raise,
    and nothing catches it here. *)
Definition save_group (symbol_path : string) (w : World)
    (g : (Z * Z) * DataFrame) : World * outcome unit :=
  let '((year, month), group_df) := g in
  let file_path := save_file_path symbol_path year month in
  match files w !! file_path with
  | Some f =>
      match read_csv f with
      | Ok existing_df =>
          (to_csv file_path (merge_partition existing_df group_df) w, Ok tt)
      | Raise e => (w, Raise e)
      end
  | None => (to_csv file_path group_df w, Ok tt)
  end.

Fixpoint save_groups (symbol_path : string)
    (groups : list ((Z * Z) * DataFrame)) (w : World) : World * outcome unit :=
  match groups with
  | [] => (w, Ok tt)
  | g :: rest =>
      match save_group symbol_path w g with
      | (w1, Ok _) => save_groups symbol_path rest w1
      | (w1, Raise e) => (w1, Raise e)
      end
  end.

Definition _save_local_data (symbol_path : string) (df_to_save : DataFrame)
    (w : World) : World * outcome unit :=
  match save_groups symbol_path (groupby_year_month df_to_save) w with
  | (w1, Ok _) => (print (SavedRawCache symbol_path) w1, Ok tt)
  | (w1, Raise e) => (w1, Raise e)
  end.

(** *** [_fetch_from_dukascopy] *)

Definition _fetch_from_dukascopy (symbol : string) (start_date end_date : Z)
    (w : World) : World * outcome DataFrame :=
  (sent (mkRequest symbol INTERVAL_TICK OFFER_SIDE_BID start_date end_date) w,
   fetch symbol INTERVAL_TICK OFFER_SIDE_BID start_date end_date).

(** *** [get]: the body of the loop over the symbols *)

(** Lines 38-53: the start of the fetch window and the frames kept from
    the cache. *)
Definition reconcile (local_df : DataFrame) (start_date : Z) (w : World)
  : Z * list DataFrame * World :=
  match index_max local_df with
  | Some last_local_timestamp =>
      let w1 := print (FoundLocalDataUpTo last_local_timestamp) w in
      let fetch_start_date := Time.floor_D last_local_timestamp in
      let clean_local_df := before fetch_start_date local_df in
      (fetch_start_date,
       if negb (empty clean_local_df) then [clean_local_df] else [],
       w1)
  | None => (start_date, [], print NoLocalDataFound w)
  end.

(** Lines 55-66: the fetch and the persist. [None] stands for the
    [continue] of the exception handler. *)
Definition fetch_new (symbol_path dukascopy_symbol : string)
    (fetch_start_date end_date : Z) (dfs_to_combine : list DataFrame)
    (w : World) : World * option (list DataFrame) :=
  if fetch_start_date <? end_date then
    let w1 := print (FetchingNewData fetch_start_date end_date) w in
    match _fetch_from_dukascopy dukascopy_symbol fetch_start_date end_date w1 with
    | (w2, Ok new_df) =>
        if negb (empty new_df) then
          match _save_local_data symbol_path new_df w2 with
          | (w3, Ok _) => (w3, Some (dfs_to_combine ++ [new_df]))
          | (w3, Raise e) => (print (ErrorFetching dukascopy_symbol e) w3, None)
          end
        else (w2, Some dfs_to_combine)
    | (w2, Raise e) => (print (ErrorFetching dukascopy_symbol e) w2, None)
    end
  else (print LocalDataUpToDate w, Some dfs_to_combine).

(** Lines 72-76: the frame handed to the export. *)
Definition final_dataset (dfs_to_combine : list DataFrame)
    (start_date end_date : Z) : DataFrame :=
  let raw_df := concat dfs_to_combine in
  let raw_df := drop_duplicates_first raw_df in
  let raw_df := sort_index raw_df in
  loc start_date end_date raw_df.

Definition output_path_of (output_dir target_symbol target_tz_str : string)
    (w : World) : string :=
  let final_output_dir := Path.join output_dir "processed_data" in
  let tz_suffix := Path.replace_slash target_tz_str in
  let output_filename :=
    target_symbol +:+ "-" +:+ tz_suffix +:+ "-" +:+ today_str w +:+ ".csv" in
  Path.join final_output_dir output_filename.

(** Lines 78-92: [tz_convert] keeps every instant and changes the zone
    the index is rendered in, which the written file records. *)
Definition export (output_dir dukascopy_symbol target_symbol
    target_tz_str : string) (raw_df : DataFrame) (w : World) : World :=
  if empty raw_df then print (FinalDatasetEmpty dukascopy_symbol) w
  else
    let output_path := output_path_of output_dir target_symbol target_tz_str w in
    let w1 := write output_path (Csv target_tz_str raw_df) w in
    let w2 := print (SavedProcessed output_path) w1 in
    let w3 := print (FirstTimestamp (head (index raw_df))) w2 in
    print (LastTimestamp (last (index raw_df))) w3.

Definition process_symbol (output_dir target_tz_str : string)
    (start_date end_date : Z) (w : World) (symbol : string * string) : World :=
  let '(dukascopy_symbol, target_symbol) := symbol in
  let w := print Separator w in
  let w := print (ProcessingSymbol dukascopy_symbol target_symbol) w in
  let symbol_path := symbol_path_of output_dir dukascopy_symbol in
  let '(local_df, w) := _load_local_data symbol_path start_date end_date w in
  let '(fetch_start_date, dfs_to_combine, w) := reconcile local_df start_date w in
  match fetch_new symbol_path dukascopy_symbol fetch_start_date end_date
                  dfs_to_combine w with
  | (w, None) => w
  | (w, Some dfs_to_combine) =>
      match dfs_to_combine with
      | [] => print (NoDataAvailable dukascopy_symbol) w
      | _ =>
          export output_dir dukascopy_symbol target_symbol target_tz_str
                 (final_dataset dfs_to_combine start_date end_date) w
      end
  end.

(** *** [get] *)

Definition get (self : Dukascopy_Tick_Data_Fetcher) (months_to_fetch : Z)
    (symbols : list (string * string)) (output_dir : string)
    (broker_timezone_arg : option string) (w : World)
  : Dukascopy_Tick_Data_Fetcher * World * outcome unit :=
  let target_tz_str :=
    match broker_timezone_arg with
    | Some tz => tz
    | None => broker_timezone self
    end in
  if known_timezone target_tz_str then
    let w := print (UsingBrokerTimezone target_tz_str) w in
    let end_date := utc_now w in
    let start_date := Time.minus_months end_date months_to_fetch in
    let w := print (RequiredDataRange start_date end_date) w in
    (self,
     fold_left (process_symbol output_dir target_tz_str start_date end_date)
               symbols w,
     Ok tt)
  else (self, w, Raise "UnknownTimeZoneError").

(** *** [set_broker_timezone] *)

Definition set_broker_timezone (self : Dukascopy_Tick_Data_Fetcher) (timezone_name : string)
    (w : World) : Dukascopy_Tick_Data_Fetcher * World :=
  if known_timezone timezone_name then
    (mkFetcher timezone_name, print (DefaultTimezoneSet timezone_name) w)
  else (self, print (UnknownTimezone timezone_name) w).

End Operations.

(** ** Sample data

    The ticks, instants, remote sources and worlds the examples below run
    on. 2025-04-25 00:00:00 UTC is [day_2025_04_25]. *)

Module Sample.

Definition tick_a : Tick := mkTick 1.5%float 1.75%float 0.5%float 0.25%float.
Definition tick_b : Tick := mkTick 2.5%float 2.75%float 0.5%float 0.25%float.

Definition hour : Z := 3600 * Time.NS_PER_SECOND.
Definition day_2025_04_25 : Z := 1745539200 * Time.NS_PER_SECOND.

Definition known (name : string) : bool :=
  String.eqb name "Europe/Helsinki" || String.eqb name "America/New_York"
  || String.eqb name "UTC".

Definition eur_cache : string := "out/raw_dukascopy_data/EUR_USD/2025/04.csv".

(** A frame with two ticks of 2025-04-25 and one of 2025-05-02. *)
Definition two_months : DataFrame :=
  [(day_2025_04_25 + hour, tick_b); (day_2025_04_25 + 2 * hour, tick_a);
   (day_2025_04_25 + 170 * hour, tick_a)].

(** A cache of 2025-04-24 14:00 and of part of 2025-04-25. *)
Definition partial_day : DataFrame :=
  [(day_2025_04_25 - 10 * hour, tick_a); (day_2025_04_25 + 10 * hour, tick_a);
   (day_2025_04_25 + 12 * hour, tick_b)].

Definition partial_day_cache : gmap string file :=
  {[ eur_cache := Csv UTC partial_day ]}.

(** A cache that reaches 2025-04-25 00:00:00 exactly, and one that holds
    nothing but a tick at that instant. *)
Definition covered_cache : gmap string file :=
  {[ eur_cache := Csv UTC [(day_2025_04_25 - 10 * hour, tick_a);
                           (day_2025_04_25, tick_b)] ]}.

Definition midnight_cache : gmap string file :=
  {[ eur_cache := Csv UTC [(day_2025_04_25, tick_b)] ]}.

(** A cache whose partition of 2025-04 does not parse. *)
Definition unparsable_cache : gmap string file := {[ eur_cache := Garbage ]}.

(** A cache holding one tick of 2025-04-25 for EUR/USD. *)
Definition one_tick_cache : gmap string file :=
  {[ eur_cache := Csv UTC [(day_2025_04_25 + hour, tick_a)] ]}.

(** A world with the given files, nothing printed and nothing requested. *)
Definition world_at (now : Z) (fs : gmap string file) : World :=
  mkWorld fs [] [] now (now + 3 * hour).

(** A remote that fails for EUR/USD and answers any other symbol with two
    ticks of 2025-04-25. *)
Definition failing_remote (symbol : string) (i : Interval) (o : OfferSide)
    (start_date end_date : Z) : outcome DataFrame :=
  if String.eqb symbol "EUR/USD" then Raise "Network error"
  else Ok [(day_2025_04_25 + hour, tick_a); (day_2025_04_25 + 2 * hour, tick_b)].

(** A remote that answers with the same label twice. *)
Definition repeating_remote (symbol : string) (i : Interval) (o : OfferSide)
    (start_date end_date : Z) : outcome DataFrame :=
  Ok [(day_2025_04_25 + hour, tick_a); (day_2025_04_25 + hour, tick_b)].

(** A remote that answers with more than the window asked for: it also
    returns a tick of the day before, with other values than cached. *)
Definition generous_remote (symbol : string) (i : Interval) (o : OfferSide)
    (start_date end_date : Z) : outcome DataFrame :=
  Ok [(day_2025_04_25 - 10 * hour, tick_b); (day_2025_04_25 + 11 * hour, tick_b)].

(** A remote whose last tick lies on the end of the window asked for. *)
Definition boundary_remote (symbol : string) (i : Interval) (o : OfferSide)
    (start_date end_date : Z) : outcome DataFrame :=
  Ok [(end_date - hour, tick_a); (end_date, tick_b)].

Definition eur_export : string :=
  "out/processed_data/EURUSD-Europe_Helsinki-2025-04-26.csv".

End Sample.

(** * Properties *)

(** ** Facts about frames *)

Module FrameFacts.

Lemma mem_In (t : Z) (l : list Z) : mem t l = true <-> In t l.
Proof.
  unfold mem. rewrite existsb_exists. split.
  - intros (x & Hx & Heq). apply Z.eqb_eq in Heq. now subst.
  - intros Hin. exists t. split; [assumption | apply Z.eqb_refl].
Qed.

Lemma mem_false (t : Z) (l : list Z) : mem t l = false <-> ~ In t l.
Proof.
  rewrite <- mem_In. destruct (mem t l); split; congruence.
Qed.

Lemma index_app (a b : DataFrame) : index (a ++ b) = index a ++ index b.
Proof. apply map_app. Qed.

Lemma In_index (r : Row) (df : DataFrame) : In r df -> In (ts r) (index df).
Proof. apply in_map. Qed.

(** *** Selecting by a mask computed from the index *)

Lemma select_map (p : Z -> bool) (df : DataFrame) :
  select (map p (index df)) df = List.filter (fun r => p (ts r)) df.
Proof.
  induction df as [|r df IH]; simpl; [reflexivity|].
  rewrite IH. reflexivity.
Qed.

Lemma before_filter (t : Z) (df : DataFrame) :
  before t df = List.filter (fun r => ts r <? t) df.
Proof. apply select_map. Qed.

Lemma In_before (t : Z) (df : DataFrame) (r : Row) :
  In r (before t df) <-> In r df /\ ts r < t.
Proof.
  rewrite before_filter, filter_In, Z.ltb_lt. reflexivity.
Qed.

(** *** Sorting *)

Section SortFacts.
Context {A : Type} (leb : A -> A -> bool).

Lemma insert_by_perm (x : A) (l : list A) :
  Permutation (insert_by leb x l) (x :: l).
Proof.
  induction l as [|y l IH]; simpl; [reflexivity|].
  destruct (leb x y); [reflexivity|].
  rewrite IH. apply perm_swap.
Qed.

Lemma sort_by_perm (l : list A) : Permutation (sort_by leb l) l.
Proof.
  induction l as [|x l IH]; simpl; [reflexivity|].
  rewrite insert_by_perm. now apply perm_skip.
Qed.

Lemma In_sort_by (x : A) (l : list A) : In x (sort_by leb l) <-> In x l.
Proof.
  split; apply Permutation_in;
    [apply sort_by_perm | symmetry; apply sort_by_perm].
Qed.
End SortFacts.

Lemma In_sort_index (r : Row) (df : DataFrame) :
  In r (sort_index df) <-> In r df.
Proof. apply In_sort_by. Qed.

Lemma index_sort_index_perm (df : DataFrame) :
  Permutation (index (sort_index df)) (index df).
Proof. apply Permutation_map, sort_by_perm. Qed.

Lemma insert_sorted (x : Row) (l : DataFrame) :
  sorted l -> sorted (insert_by ts_leb x l).
Proof.
  unfold sorted. induction 1 as [|y l Hl IH Hy]; simpl.
  - repeat constructor.
  - unfold ts_leb at 1. destruct (Z.leb_spec (ts x) (ts y)) as [Hle|Hgt].
    + constructor; [constructor; assumption|].
      constructor; [assumption|].
      eapply List.Forall_impl; [|exact Hy]. simpl. intros a Ha. lia.
    + constructor; [assumption|].
      eapply Permutation_Forall; [symmetry; apply insert_by_perm|].
      constructor; [lia | assumption].
Qed.

Lemma sort_index_sorted (df : DataFrame) : sorted (sort_index df).
Proof.
  induction df as [|r df IH]; simpl; [constructor|].
  now apply insert_sorted.
Qed.

Lemma insert_ascending (x : Row) (l : DataFrame) :
  ascending l -> ~ In (ts x) (index l) -> ascending (insert_by ts_leb x l).
Proof.
  unfold ascending. induction 1 as [|y l Hl IH Hy]; simpl; intros Hnot.
  - repeat constructor.
  - unfold ts_leb at 1. destruct (Z.leb_spec (ts x) (ts y)) as [Hle|Hgt].
    + assert (Hlt : ts x < ts y) by (cut (ts y <> ts x); [lia | tauto]).
      constructor; [constructor; assumption|].
      constructor; [assumption|].
      eapply List.Forall_impl; [|exact Hy]. simpl. intros a Ha. lia.
    + constructor; [apply IH; tauto|].
      eapply Permutation_Forall; [symmetry; apply insert_by_perm|].
      constructor; [lia | assumption].
Qed.

Lemma sort_index_ascending (df : DataFrame) :
  NoDup (index df) -> ascending (sort_index df).
Proof.
  induction df as [|r df IH]; simpl; intros Hnd; [constructor|].
  inversion Hnd as [|t l Hnot Hnd']; subst.
  apply insert_ascending; [now apply IH|].
  intros Hin. apply Hnot, list_elem_of_In.
  eapply Permutation_in; [apply index_sort_index_perm | exact Hin].
Qed.

Lemma ascending_sorted (df : DataFrame) : ascending df -> sorted df.
Proof.
  unfold ascending, sorted. induction 1 as [|y l Hl IH Hy]; constructor.
  - assumption.
  - eapply List.Forall_impl; [|exact Hy]. simpl. intros a Ha. lia.
Qed.

Lemma ascending_NoDup (df : DataFrame) : ascending df -> NoDup (index df).
Proof.
  unfold ascending. induction 1 as [|y l Hl IH Hy]; simpl; constructor.
  - rewrite list_elem_of_In. intros Hin.
    apply in_map_iff in Hin as (a & Heq & Ha).
    rewrite List.Forall_forall in Hy. specialize (Hy a Ha). lia.
  - assumption.
Qed.

(** Two ascending frames with the same rows are the same frame. *)
Lemma ascending_unique (l1 l2 : DataFrame) :
  ascending l1 -> ascending l2 ->
  (forall r, In r l1 <-> In r l2) -> l1 = l2.
Proof.
  unfold ascending. intros H1. revert l2.
  induction H1 as [|x l1 Hl1 IH Hx]; intros l2 H2 Hsame.
  - destruct l2 as [|y l2]; [reflexivity|].
    exfalso. apply (Hsame y). now left.
  - destruct H2 as [|y l2 Hl2 Hy].
    + exfalso. apply (Hsame x). now left.
    + rewrite List.Forall_forall in Hx, Hy.
      assert (Hxy : x = y).
      { destruct (proj1 (Hsame x) (or_introl eq_refl)) as [Heq|Hin];
          [now symmetry|].
        destruct (proj2 (Hsame y) (or_introl eq_refl)) as [Heq|Hin'];
          [assumption|].
        specialize (Hx y Hin'). specialize (Hy x Hin). lia. }
      subst y. f_equal. apply IH; [assumption|].
      intros r. split; intros Hr.
      * destruct (proj1 (Hsame r) (or_intror Hr)) as [Heq|Hin]; [|assumption].
        subst r. specialize (Hx x Hr). lia.
      * destruct (proj2 (Hsame r) (or_intror Hr)) as [Heq|Hin]; [|assumption].
        subst r. specialize (Hy x Hr). lia.
Qed.

(** Where no label occurs twice the order of the result leaves no choice:
    every ascending arrangement of the rows is [sort_index]. *)
Lemma sort_index_characterized (df arranged : DataFrame) :
  ascending arranged -> Permutation arranged df -> sort_index df = arranged.
Proof.
  intros Hasc Hperm. apply ascending_unique.
  - apply sort_index_ascending.
    apply NoDup_ListNoDup.
    eapply Permutation_NoDup; [apply Permutation_map, Hperm|].
    apply NoDup_ListNoDup, ascending_NoDup, Hasc.
  - assumption.
  - intros r. rewrite In_sort_index. split; apply Permutation_in;
      [symmetry|]; assumption.
Qed.

Lemma sort_index_ascending_id (df : DataFrame) :
  ascending df -> sort_index df = df.
Proof.
  intros Hasc. apply ascending_unique.
  - apply sort_index_ascending, ascending_NoDup, Hasc.
  - assumption.
  - intros r. apply In_sort_index.
Qed.

(** *** First and last row at a label *)

Lemma first_at_app (t : Z) (a b : DataFrame) :
  first_at t (a ++ b) =
  match first_at t a with Some r => Some r | None => first_at t b end.
Proof.
  unfold first_at. induction a as [|x a IH]; simpl; [reflexivity|].
  destruct (ts x =? t); [reflexivity | apply IH].
Qed.

Lemma first_at_Some (t : Z) (df : DataFrame) (r : Row) :
  first_at t df = Some r -> In r df /\ ts r = t.
Proof.
  unfold first_at. intros H. apply find_some in H as [Hin Heq].
  split; [assumption | now apply Z.eqb_eq].
Qed.

Lemma first_at_None (t : Z) (df : DataFrame) :
  first_at t df = None <-> ~ In t (index df).
Proof.
  unfold first_at. induction df as [|x df IH]; simpl.
  - tauto.
  - destruct (Z.eqb_spec (ts x) t) as [Heq|Hne].
    + split; [discriminate | intros H; exfalso; apply H; now left].
    + rewrite IH. tauto.
Qed.

Lemma last_at_cons (t : Z) (x : Row) (df : DataFrame) :
  last_at t (x :: df) =
  match last_at t df with
  | Some r => Some r
  | None => if ts x =? t then Some x else None
  end.
Proof.
  unfold last_at. simpl rev. rewrite first_at_app.
  destruct (first_at t (rev df)); [reflexivity|].
  unfold first_at. simpl. now destruct (ts x =? t).
Qed.

Lemma last_at_app (t : Z) (a b : DataFrame) :
  last_at t (a ++ b) =
  match last_at t b with Some r => Some r | None => last_at t a end.
Proof.
  unfold last_at. rewrite rev_app_distr. apply first_at_app.
Qed.

Lemma last_at_Some (t : Z) (df : DataFrame) (r : Row) :
  last_at t df = Some r -> In r df /\ ts r = t.
Proof.
  unfold last_at. intros H. apply first_at_Some in H as [Hin Heq].
  split; [now apply in_rev | assumption].
Qed.

Lemma last_at_None (t : Z) (df : DataFrame) :
  last_at t df = None <-> ~ In t (index df).
Proof.
  unfold last_at. rewrite first_at_None. unfold index.
  rewrite map_rev, <- in_rev. reflexivity.
Qed.

(** In a frame without repeated labels, the row at a label is the one row
    that carries it. *)
Lemma first_at_unique (df : DataFrame) (r : Row) :
  NoDup (index df) -> In r df -> first_at (ts r) df = Some r.
Proof.
  unfold first_at. induction df as [|x df IH]; simpl; intros Hnd Hin.
  - contradiction.
  - inversion Hnd as [|t l Hnot Hnd']; subst.
    destruct Hin as [Heq|Hin].
    + subst x. now rewrite Z.eqb_refl.
    + destruct (Z.eqb_spec (ts x) (ts r)) as [Heq|Hne].
      * exfalso. apply Hnot, list_elem_of_In. rewrite Heq.
        now apply In_index.
      * now apply IH.
Qed.

Lemma last_at_unique (df : DataFrame) (r : Row) :
  NoDup (index df) -> In r df -> last_at (ts r) df = Some r.
Proof.
  intros Hnd Hin. unfold last_at. apply first_at_unique.
  - unfold index. rewrite map_rev.
    apply NoDup_ListNoDup, List.NoDup_rev, NoDup_ListNoDup, Hnd.
  - now apply in_rev in Hin.
Qed.

(** *** Dropping duplicated labels *)

Lemma drop_duplicates_last_cons (x : Row) (df : DataFrame) :
  drop_duplicates_last (x :: df) =
  if mem (ts x) (index df) then drop_duplicates_last df
  else x :: drop_duplicates_last df.
Proof.
  unfold drop_duplicates_last, mask_not. simpl.
  now destruct (mem (ts x) (index df)).
Qed.

Lemma In_drop_duplicates_last (df : DataFrame) (r : Row) :
  In r (drop_duplicates_last df) <-> last_at (ts r) df = Some r.
Proof.
  induction df as [|x df IH].
  - unfold last_at, first_at. simpl. split; [contradiction | discriminate].
  - rewrite drop_duplicates_last_cons, last_at_cons.
    destruct (mem (ts x) (index df)) eqn:Hmem.
    + apply mem_In in Hmem. rewrite IH.
      destruct (last_at (ts r) df) as [y|] eqn:Hlast; [reflexivity|].
      apply last_at_None in Hlast.
      destruct (Z.eqb_spec (ts x) (ts r)) as [Heq|Hne];
        [|split; discriminate].
      rewrite <- Heq in Hlast. contradiction.
    + apply mem_false in Hmem. simpl. rewrite IH.
      destruct (last_at (ts r) df) as [y|] eqn:Hlast.
      * split; [|tauto]. intros [Heq|H]; [|assumption].
        exfalso. subst x. apply last_at_Some in Hlast as [Hin Hts].
        apply Hmem. rewrite <- Hts. now apply In_index.
      * destruct (Z.eqb_spec (ts x) (ts r)) as [Heq|Hne].
        -- split; [|intros [= ->]; now left].
           intros [->|H]; [reflexivity | discriminate].
        -- split; [|discriminate].
           intros [->|H]; [congruence | discriminate].
Qed.

Lemma index_drop_duplicates_last_incl (df : DataFrame) (t : Z) :
  In t (index (drop_duplicates_last df)) -> In t (index df).
Proof.
  intros Hin. apply in_map_iff in Hin as (r & <- & Hr).
  apply In_drop_duplicates_last, last_at_Some in Hr as [Hr _].
  now apply In_index.
Qed.

Lemma NoDup_drop_duplicates_last (df : DataFrame) :
  NoDup (index (drop_duplicates_last df)).
Proof.
  induction df as [|x df IH].
  - constructor.
  - rewrite drop_duplicates_last_cons.
    destruct (mem (ts x) (index df)) eqn:Hmem; [assumption|].
    apply mem_false in Hmem. simpl. constructor; [|assumption].
    rewrite list_elem_of_In. intros Hin. apply Hmem.
    now apply index_drop_duplicates_last_incl.
Qed.

Lemma keep_first_from_cons (seen : list Z) (x : Row) (df : DataFrame) :
  keep_first_from seen (x :: df) =
  if mem (ts x) seen then keep_first_from (ts x :: seen) df
  else x :: keep_first_from (ts x :: seen) df.
Proof.
  unfold keep_first_from, mask_not. simpl. now destruct (mem (ts x) seen).
Qed.

Lemma In_keep_first_from (df : DataFrame) (seen : list Z) (r : Row) :
  In r (keep_first_from seen df) <->
  ~ In (ts r) seen /\ first_at (ts r) df = Some r.
Proof.
  revert seen. induction df as [|x df IH]; intros seen.
  - unfold keep_first_from, first_at. simpl.
    split; [contradiction | intros [_ H]; discriminate].
  - rewrite keep_first_from_cons.
    unfold first_at. simpl. fold (first_at (ts r) df).
    destruct (mem (ts x) seen) eqn:Hmem.
    + apply mem_In in Hmem. rewrite IH. simpl.
      destruct (Z.eqb_spec (ts x) (ts r)) as [Heq|Hne].
      * rewrite <- Heq. tauto.
      * tauto.
    + apply mem_false in Hmem. simpl. rewrite IH. simpl.
      destruct (Z.eqb_spec (ts x) (ts r)) as [Heq|Hne].
      * split.
        -- intros [->|[Hn _]]; [tauto | tauto].
        -- intros [_ [= ->]]. now left.
      * split.
        -- intros [->|[Hn Hf]]; [congruence | tauto].
        -- intros [Hn Hf]. right. tauto.
Qed.

Lemma NoDup_keep_first_from (df : DataFrame) (seen : list Z) :
  NoDup (index (keep_first_from seen df)).
Proof.
  revert seen. induction df as [|x df IH]; intros seen.
  - constructor.
  - rewrite keep_first_from_cons.
    destruct (mem (ts x) seen); [apply IH|].
    simpl. constructor; [|apply IH].
    rewrite list_elem_of_In. intros Hin.
    apply in_map_iff in Hin as (r & Heq & Hr).
    apply In_keep_first_from in Hr as [Hn _].
    apply Hn. rewrite Heq. now left.
Qed.

Lemma In_drop_duplicates_first (df : DataFrame) (r : Row) :
  In r (drop_duplicates_first df) <-> first_at (ts r) df = Some r.
Proof.
  change (drop_duplicates_first df) with (keep_first_from [] df).
  rewrite In_keep_first_from. simpl. tauto.
Qed.

Lemma NoDup_drop_duplicates_first (df : DataFrame) :
  NoDup (index (drop_duplicates_first df)).
Proof. apply (NoDup_keep_first_from df []). Qed.

(** *** Label slices *)

Lemma skip_below_sorted (a : Z) (df : DataFrame) :
  sorted df -> skip_below a df = List.filter (fun r => a <=? ts r) df.
Proof.
  unfold sorted. induction 1 as [|x l Hl IH Hx]; simpl; [reflexivity|].
  destruct (Z.ltb_spec (ts x) a) as [Hlt|Hge].
  - rewrite IH. destruct (Z.leb_spec a (ts x)); [lia | reflexivity].
  - destruct (Z.leb_spec a (ts x)) as [_|]; [|lia]. f_equal.
    symmetry. apply forallb_filter_id, forallb_forall.
    rewrite List.Forall_forall in Hx. intros r Hr.
    apply Z.leb_le. specialize (Hx r Hr). lia.
Qed.

Lemma take_upto_sorted (b : Z) (df : DataFrame) :
  sorted df -> take_upto b df = List.filter (fun r => ts r <=? b) df.
Proof.
  unfold sorted. induction 1 as [|x l Hl IH Hx]; simpl; [reflexivity|].
  destruct (Z.leb_spec (ts x) b) as [Hle|Hgt].
  - now rewrite IH.
  - symmetry. rewrite List.Forall_forall in Hx.
    clear IH Hl. induction l as [|y l IHl]; simpl; [reflexivity|].
    destruct (Z.leb_spec (ts y) b) as [Hle|_].
    + specialize (Hx y (or_introl eq_refl)). lia.
    + apply IHl. intros r Hr. apply Hx. now right.
Qed.

Lemma filter_StronglySorted {A : Type} (R : A -> A -> Prop) (p : A -> bool)
    (l : list A) :
  StronglySorted R l -> StronglySorted R (List.filter p l).
Proof.
  induction 1 as [|x l Hl IH Hx]; simpl; [constructor|].
  destruct (p x); [|assumption].
  constructor; [assumption|].
  rewrite List.Forall_forall in *. intros y Hy.
  apply filter_In in Hy as [Hy _]. now apply Hx.
Qed.

(** On a sorted frame the label slice keeps exactly the rows whose label
    lies in the closed interval. *)
Lemma loc_sorted (a b : Z) (df : DataFrame) :
  sorted df ->
  loc a b df = List.filter (fun r => (a <=? ts r) && (ts r <=? b)) df.
Proof.
  intros Hs. unfold loc. rewrite (skip_below_sorted a df Hs).
  rewrite take_upto_sorted by (apply filter_StronglySorted, Hs).
  clear Hs. induction df as [|x df IH]; simpl; [reflexivity|].
  destruct (a <=? ts x); simpl; [|assumption].
  destruct (ts x <=? b); simpl; now rewrite IH.
Qed.

Lemma In_loc (a b : Z) (df : DataFrame) (r : Row) :
  sorted df -> (In r (loc a b df) <-> In r df /\ a <= ts r <= b).
Proof.
  intros Hs. rewrite loc_sorted, filter_In by assumption.
  rewrite andb_true_iff, !Z.leb_le. tauto.
Qed.

Lemma loc_ascending (a b : Z) (df : DataFrame) :
  ascending df -> ascending (loc a b df).
Proof.
  intros Hasc. rewrite loc_sorted by now apply ascending_sorted.
  now apply filter_StronglySorted.
Qed.

Lemma loc_sorted_sorted (a b : Z) (df : DataFrame) :
  sorted df -> sorted (loc a b df).
Proof.
  intros Hs. rewrite loc_sorted by assumption.
  now apply filter_StronglySorted.
Qed.

End FrameFacts.

(** ** Facts about paths *)

Module PathFacts.
Import Path.

#[local] Arguments String.app !_ _ / : simpl nomatch.

Lemma append_assoc (a b c : string) : (a +:+ b) +:+ c = a +:+ (b +:+ c).
Proof. induction a as [|x a IH]; simpl; [reflexivity | now f_equal]. Qed.

Lemma join_relative (a b : string) :
  startswith_sep b = false -> join a b = as_dir a +:+ b.
Proof.
  intros Hb. unfold join, as_dir. rewrite Hb.
  destruct (is_empty a || endswith_sep a); [reflexivity|].
  symmetry. apply append_assoc.
Qed.

Lemma append_inv_head (a b c : string) : a +:+ b = a +:+ c -> b = c.
Proof.
  induction a as [|x a IH]; simpl; [tauto|]. intros [= H]. now apply IH.
Qed.

Lemma has_char_append (c : ascii) (a b : string) :
  has_char c (a +:+ b) = has_char c a || has_char c b.
Proof.
  induction a as [|x a IH]; simpl; [reflexivity|].
  rewrite IH. apply orb_assoc.
Qed.

(** Two strings cut at the first occurrence of a character agree on both
    sides of the cut. *)
Lemma split_at_char (c : ascii) (a1 a2 b1 b2 : string) :
  has_char c a1 = false -> has_char c a2 = false ->
  a1 +:+ String c b1 = a2 +:+ String c b2 -> a1 = a2 /\ b1 = b2.
Proof.
  revert a2. induction a1 as [|x a1 IH]; intros [|y a2]; simpl.
  - intros _ _ [= ->]. tauto.
  - intros _ Hy [= <- _]. rewrite Ascii.eqb_refl in Hy. discriminate.
  - intros Hx _ [= -> _]. rewrite Ascii.eqb_refl in Hx. discriminate.
  - intros Hx Hy [= -> H].
    apply orb_false_iff in Hx as [_ Hx], Hy as [_ Hy].
    destruct (IH a2 Hx Hy H) as [-> ->]. tauto.
Qed.

Lemma startswith_sep_has_char (s : string) :
  has_char "/" s = false -> startswith_sep s = false.
Proof.
  destruct s as [|c s]; simpl; [reflexivity|].
  intros H. now apply orb_false_iff in H as [H _].
Qed.

Lemma endswith_sep_append (a b : string) :
  b <> EmptyString -> has_char "/" b = false -> endswith_sep (a +:+ b) = false.
Proof.
  intros Hne Hb. induction a as [|x a IH].
  - simpl. clear Hne. induction b as [|y b IHb]; [reflexivity|].
    simpl in Hb. apply orb_false_iff in Hb as [Hy Hb].
    simpl. destruct b; [assumption | now apply IHb].
  - simpl. destruct (a +:+ b) eqn:Hab; [|assumption].
    destruct a; simpl in Hab; [contradiction | discriminate].
Qed.

(** The characters of [str n] are digits and the minus sign. *)
Lemma uint_no_slash (d : Decimal.uint) :
  has_char "/" (NilEmpty.string_of_uint d) = false.
Proof. induction d; simpl; auto. Qed.

Lemma uint_no_dot (d : Decimal.uint) :
  has_char "." (NilEmpty.string_of_uint d) = false.
Proof. induction d; simpl; auto. Qed.

Lemma str_no_slash (n : Z) : has_char "/" (str n) = false.
Proof. unfold str. destruct (Z.to_int n); simpl; apply uint_no_slash. Qed.

Lemma str_no_dot (n : Z) : has_char "." (str n) = false.
Proof. unfold str. destruct (Z.to_int n); simpl; apply uint_no_dot. Qed.

Lemma str_nonempty (n : Z) : str n <> EmptyString.
Proof.
  unfold str. destruct n as [|p|p]; simpl; [discriminate| |discriminate].
  pose proof (DecimalPos.Unsigned.to_uint_nonnil p) as Hp.
  destruct (Pos.to_uint p); simpl; congruence || discriminate.
Qed.

Lemma str_inj (a b : Z) : str a = str b -> a = b.
Proof.
  unfold str. intros H. apply DecimalZ.to_int_inj.
  apply (f_equal NilEmpty.int_of_string) in H.
  rewrite !NilEmpty.isi in H. congruence.
Qed.

Lemma str_padded (m n : Z) : 0 <= m < 10 -> "0" +:+ str m = str n -> 0 <= n < 10.
Proof.
  intros Hm.
  assert (E : exists k : nat, m = Z.of_nat k /\ (k < 10)%nat)
    by (exists (Z.to_nat m); lia).
  destruct E as (k & -> & Hk). clear Hm. intros H.
  apply (f_equal (fun s => option_map Z.of_int (NilEmpty.int_of_string s))) in H.
  unfold str in H at 2. rewrite NilEmpty.isi in H. cbn [option_map] in H.
  rewrite DecimalZ.of_to in H.
  do 10 (destruct k as [|k];
         [vm_compute in H; injection H as <-; lia|]).
  lia.
Qed.

Lemma fmt02d_inj (a b : Z) : fmt02d a = fmt02d b -> a = b.
Proof.
  unfold fmt02d.
  destruct ((0 <=? a) && (a <? 10)) eqn:Ha, ((0 <=? b) && (b <? 10)) eqn:Hb.
  - intros H. apply str_inj. now apply append_inv_head in H.
  - intros H. apply str_padded in H; [|lia].
    apply andb_false_iff in Hb. lia.
  - intros H. symmetry in H. apply str_padded in H; [|lia].
    apply andb_false_iff in Ha. lia.
  - apply str_inj.
Qed.

Lemma fmt02d_no_slash (n : Z) : has_char "/" (fmt02d n) = false.
Proof.
  unfold fmt02d. destruct ((0 <=? n) && (n <? 10)); simpl; apply str_no_slash.
Qed.

Lemma fmt02d_no_dot (n : Z) : has_char "." (fmt02d n) = false.
Proof.
  unfold fmt02d. destruct ((0 <=? n) && (n <? 10)); simpl; apply str_no_dot.
Qed.

(** The partition path, spelled out. *)
Lemma save_file_path_eq (symbol_path : string) (year month : Z) :
  save_file_path symbol_path year month =
  as_dir symbol_path +:+ str year +:+ "/" +:+ fmt02d month +:+ ".csv".
Proof.
  unfold save_file_path.
  rewrite (join_relative symbol_path (str year))
    by apply startswith_sep_has_char, str_no_slash.
  rewrite join_relative.
  - unfold as_dir at 1.
    rewrite endswith_sep_append by (apply str_nonempty || apply str_no_slash).
    replace (is_empty (as_dir symbol_path +:+ str year)) with false.
    + simpl. now rewrite !append_assoc.
    + pose proof (str_nonempty year) as Hne.
      destruct (as_dir symbol_path); simpl; [|reflexivity].
      destruct (str year); [contradiction | reflexivity].
  - apply startswith_sep_has_char. rewrite has_char_append.
    now rewrite fmt02d_no_slash.
Qed.

Lemma load_file_path_eq (symbol_path : string) (year month : Z) :
  load_file_path symbol_path year month = save_file_path symbol_path year month.
Proof. reflexivity. Qed.

Lemma save_file_path_inj (symbol_path : string) (y1 m1 y2 m2 : Z) :
  save_file_path symbol_path y1 m1 = save_file_path symbol_path y2 m2 ->
  y1 = y2 /\ m1 = m2.
Proof.
  rewrite !save_file_path_eq. intros H.
  apply append_inv_head in H.
  apply split_at_char in H as [Hy H]; try apply str_no_slash.
  apply str_inj in Hy.
  apply split_at_char in H as [Hm _]; try apply fmt02d_no_dot.
  apply fmt02d_inj in Hm. tauto.
Qed.

End PathFacts.

(** ** Facts about the partition merge and the grouping *)

Module MergeFacts.
Import FrameFacts.

Lemma merge_partition_eq (e g : DataFrame) :
  merge_partition e g = sort_index (drop_duplicates_last (e ++ g)).
Proof.
  unfold merge_partition, concat. simpl. now rewrite app_nil_r.
Qed.

Lemma merge_partition_ascending (e g : DataFrame) :
  ascending (merge_partition e g).
Proof.
  rewrite merge_partition_eq.
  apply sort_index_ascending, NoDup_drop_duplicates_last.
Qed.

(** A row is in the merge when it is the last row of the new group at its
    label, or the label is not in the new group and it is the last row of
    the existing partition at its label. *)
Lemma In_merge_partition (e g : DataFrame) (r : Row) :
  In r (merge_partition e g) <->
  last_at (ts r) g = Some r \/
  (~ In (ts r) (index g) /\ last_at (ts r) e = Some r).
Proof.
  rewrite merge_partition_eq, In_sort_index, In_drop_duplicates_last.
  rewrite last_at_app.
  destruct (last_at (ts r) g) as [x|] eqn:Hg.
  - split; [tauto|]. intros [H|[Hn _]]; [assumption|].
    exfalso. apply Hn. apply last_at_Some in Hg as [Hin <-].
    now apply In_index.
  - apply last_at_None in Hg. split; [tauto|].
    intros [H|[_ H]]; [discriminate | assumption].
Qed.

Lemma merge_partition_absorbs (e g : DataFrame) :
  merge_partition (merge_partition e g) g = merge_partition e g.
Proof.
  apply ascending_unique; try apply merge_partition_ascending.
  intros r. rewrite (In_merge_partition (merge_partition e g) g).
  pose proof (merge_partition_ascending e g) as Hasc.
  apply ascending_NoDup in Hasc.
  split.
  - intros [H|[Hn H]].
    + apply In_merge_partition. now left.
    + now apply last_at_Some in H as [H _].
  - intros Hin. pose proof Hin as Hin'.
    apply In_merge_partition in Hin' as [H|[Hn H]]; [now left|].
    right. split; [assumption|]. now apply last_at_unique.
Qed.

(** Merging into an ascending partition rows it already holds gives the
    partition back. *)
Lemma merge_partition_contained (p g : DataFrame) :
  ascending p -> (forall r, In r g -> In r p) -> merge_partition p g = p.
Proof.
  intros Hasc Hsub. apply ascending_unique;
    [apply merge_partition_ascending | assumption |].
  pose proof (ascending_NoDup p Hasc) as Hnd.
  intros r. rewrite In_merge_partition. split.
  - intros [H|[_ H]].
    + apply last_at_Some in H as [H _]. now apply Hsub.
    + now apply last_at_Some in H as [H _].
  - intros Hin.
    destruct (last_at (ts r) g) as [x|] eqn:Hg.
    + left. f_equal. apply last_at_Some in Hg as [Hx Hts].
      apply Hsub in Hx.
      pose proof (first_at_unique p x Hnd Hx) as H1.
      pose proof (first_at_unique p r Hnd Hin) as H2.
      rewrite Hts in H1. congruence.
    + right. split; [now apply last_at_None|]. now apply last_at_unique.
Qed.

Lemma merge_partition_self (g : DataFrame) :
  ascending g -> merge_partition g g = g.
Proof. intros H. now apply merge_partition_contained. Qed.

(** *** Groups *)

Lemma key_eqb_eq (a b : Z * Z) : key_eqb a b = true <-> a = b.
Proof.
  destruct a as [a1 a2], b as [b1 b2]. unfold key_eqb. simpl.
  rewrite andb_true_iff, !Z.eqb_eq. split; [intros [-> ->]|intros [= -> ->]];
    tauto.
Qed.

Lemma In_group (k : Z * Z) (df : DataFrame) (r : Row) :
  In r (group k df) <-> In r df /\ year_month r = k.
Proof. unfold group. now rewrite filter_In, key_eqb_eq. Qed.

Lemma In_group_keys (k : Z * Z) (df : DataFrame) :
  In k (group_keys df) <-> exists r, In r df /\ year_month r = k.
Proof.
  unfold group_keys. rewrite In_sort_by, <- list_elem_of_In.
  rewrite elem_of_remove_dups, list_elem_of_In, in_map_iff.
  split; intros (r & H1 & H2); exists r; tauto.
Qed.

Lemma group_keys_nonempty (k : Z * Z) (df : DataFrame) :
  In k (group_keys df) <-> group k df <> [].
Proof.
  rewrite In_group_keys. split.
  - intros (r & Hr & Hk) Hnil.
    assert (Hin : In r (group k df)) by now apply In_group.
    rewrite Hnil in Hin. contradiction.
  - destruct (group k df) as [|r g] eqn:Hg; [congruence|]. intros _.
    exists r. apply In_group. rewrite Hg. now left.
Qed.

Lemma NoDup_group_keys (df : DataFrame) : NoDup (group_keys df).
Proof.
  unfold group_keys.
  apply NoDup_ListNoDup.
  eapply Permutation_NoDup; [symmetry; apply sort_by_perm|].
  apply NoDup_ListNoDup, NoDup_remove_dups.
Qed.

Lemma group_ascending (k : Z * Z) (df : DataFrame) :
  ascending df -> ascending (group k df).
Proof. apply filter_StronglySorted. Qed.

Lemma In_groupby (k : Z * Z) (g df : DataFrame) :
  In (k, g) (groupby_year_month df) <-> g = group k df /\ g <> [].
Proof.
  unfold groupby_year_month. rewrite in_map_iff. split.
  - intros (k' & [= -> <-] & Hk). split; [reflexivity|].
    now apply group_keys_nonempty.
  - intros [-> Hne]. exists k. split; [reflexivity|].
    now apply group_keys_nonempty.
Qed.

Lemma groupby_keys (df : DataFrame) :
  map fst (groupby_year_month df) = group_keys df.
Proof.
  unfold groupby_year_month. rewrite map_map. simpl. apply map_id.
Qed.

End MergeFacts.

(** ** Facts about [_save_local_data] *)

Module SaveFacts.
Import FrameFacts MergeFacts PathFacts.

Lemma with_files_id (w : World) : with_files (files w) w = w.
Proof. now destruct w. Qed.

Lemma write_same (p : string) (f : file) (w : World) :
  files w !! p = Some f -> write p f w = w.
Proof.
  intros H. unfold write. rewrite insert_id by assumption.
  apply with_files_id.
Qed.

Lemma files_write (p : string) (f : file) (w : World) :
  files (write p f w) = <[p := f]> (files w).
Proof. reflexivity. Qed.

(** The loop body either meets an unparsable partition and raises, leaving
    the world as it is, or rewrites the partition. *)
Lemma save_group_cases (symbol_path : string) (w : World) (year month : Z)
    (group_df : DataFrame) :
  let p := save_file_path symbol_path year month in
  (files w !! p = Some Garbage /\
   save_group symbol_path w ((year, month), group_df) = (w, Raise "ParserError"))
  \/
  (files w !! p <> Some Garbage /\
   save_group symbol_path w ((year, month), group_df) =
   (write p (Csv UTC match files w !! p with
                     | Some (Csv _ existing_df) =>
                         merge_partition existing_df group_df
                     | _ => group_df
                     end) w, Ok tt)).
Proof.
  intros p. unfold save_group. fold p.
  destruct (files w !! p) as [[tz e|]|]; simpl.
  - right. split; [discriminate | reflexivity].
  - left. split; reflexivity.
  - right. split; [discriminate | reflexivity].
Qed.

Lemma save_groups_cons (symbol_path : string) (g : (Z * Z) * DataFrame)
    (rest : list ((Z * Z) * DataFrame)) (w : World) :
  save_groups symbol_path (g :: rest) w =
  match save_group symbol_path w g with
  | (w1, Ok _) => save_groups symbol_path rest w1
  | (w1, Raise e) => (w1, Raise e)
  end.
Proof. reflexivity. Qed.

(** The loop changes nothing but files, and only partition files of the
    groups it was given. *)
Lemma save_groups_frame (symbol_path : string)
    (groups : list ((Z * Z) * DataFrame)) (w : World) :
  (save_groups symbol_path groups w).1 =
    with_files (files (save_groups symbol_path groups w).1) w /\
  forall p,
    (forall k g, In (k, g) groups -> p <> save_file_path symbol_path k.1 k.2) ->
    files (save_groups symbol_path groups w).1 !! p = files w !! p.
Proof.
  revert w. induction groups as [|[[y m] g] rest IH]; intros w.
  - simpl. split; [now rewrite with_files_id | reflexivity].
  - rewrite save_groups_cons.
    destruct (save_group_cases symbol_path w y m g) as [[_ ->]|[_ ->]].
    + simpl. split; [now rewrite with_files_id | reflexivity].
    + destruct (IH (write (save_file_path symbol_path y m)
                  (Csv UTC match files w !! save_file_path symbol_path y m with
                           | Some (Csv _ e) => merge_partition e g
                           | _ => g
                           end) w)) as [Hw Hp].
      split; [exact Hw|].
      intros p Hne. rewrite Hp.
      * rewrite files_write, lookup_insert_ne; [reflexivity|].
        intros Heq. apply (Hne (y, m) g); [now left | now symmetry].
      * intros k g' Hin. apply (Hne k g'). now right.
Qed.

Lemma save_groups_untouched (symbol_path : string)
    (groups : list ((Z * Z) * DataFrame)) (w : World) (k : Z * Z) :
  ~ In k (map fst groups) ->
  files (save_groups symbol_path groups w).1
    !! save_file_path symbol_path k.1 k.2
  = files w !! save_file_path symbol_path k.1 k.2.
Proof.
  intros Hk. apply save_groups_frame. intros k' g Hin Heq.
  apply save_file_path_inj in Heq as [H1 H2]. apply Hk.
  apply in_map_iff. exists (k', g). split; [|assumption].
  destruct k, k'. simpl in *. congruence.
Qed.

(** When no partition in the way is unparsable, every group is written. *)
Lemma save_groups_ok (symbol_path : string)
    (groups : list ((Z * Z) * DataFrame)) (w : World) :
  NoDup (map fst groups) ->
  (forall k g, In (k, g) groups ->
     files w !! save_file_path symbol_path k.1 k.2 <> Some Garbage) ->
  exists w1,
    save_groups symbol_path groups w = (w1, Ok tt) /\
    forall k g, In (k, g) groups ->
      files w1 !! save_file_path symbol_path k.1 k.2 =
      Some (Csv UTC match files w !! save_file_path symbol_path k.1 k.2 with
                    | Some (Csv _ e) => merge_partition e g
                    | _ => g
                    end).
Proof.
  revert w. induction groups as [|[[y m] g] rest IH]; intros w Hnd Hok.
  - exists w. split; [reflexivity | contradiction].
  - simpl in Hnd. inversion Hnd as [|k0 l0 Hnot Hnd']; subst.
    rewrite list_elem_of_In in Hnot.
    rewrite save_groups_cons.
    destruct (save_group_cases symbol_path w y m g) as [[Hg _]|[_ Hs]].
    { exfalso. apply (Hok (y, m) g); [now left | exact Hg]. }
    rewrite Hs. clear Hs.
    set (wa := write _ _ w).
    assert (Hsame : forall k, In k (map fst rest) ->
              files wa !! save_file_path symbol_path k.1 k.2 =
              files w !! save_file_path symbol_path k.1 k.2).
    { intros k Hk. unfold wa. rewrite files_write, lookup_insert_ne;
        [reflexivity|].
      intros Heq. apply save_file_path_inj in Heq as [H1 H2].
      apply Hnot. destruct k. simpl in *. now subst. }
    destruct (IH wa Hnd') as (w1 & Hrun & Hfiles).
    { intros k g' Hin. rewrite Hsame.
      - apply (Hok k g'). now right.
      - apply in_map_iff. now exists (k, g'). }
    exists w1. split; [exact Hrun|].
    intros k g' [[= <- <-]|Hin].
    + pose proof (save_groups_untouched symbol_path rest wa (y, m) Hnot) as Hu.
      rewrite Hrun in Hu. cbn [fst snd] in Hu |- *. rewrite Hu.
      unfold wa. now rewrite files_write, lookup_insert_eq.
    + rewrite (Hfiles k g' Hin), Hsame; [reflexivity|].
      apply in_map_iff. now exists (k, g').
Qed.

(** Running the loop again on its own result changes nothing, provided the
    groups that opened a new partition were ascending. *)
Lemma save_groups_again (symbol_path : string)
    (groups : list ((Z * Z) * DataFrame)) (w w1 : World) (o : outcome unit) :
  NoDup (map fst groups) ->
  (forall k g, In (k, g) groups ->
     files w !! save_file_path symbol_path k.1 k.2 = None -> ascending g) ->
  save_groups symbol_path groups w = (w1, o) ->
  save_groups symbol_path groups w1 = (w1, o).
Proof.
  revert w. induction groups as [|[[y m] g] rest IH]; intros w Hnd Hasc Hrun.
  - simpl in *. congruence.
  - simpl in Hnd. inversion Hnd as [|k0 l0 Hnot Hnd']; subst.
    rewrite list_elem_of_In in Hnot.
    rewrite save_groups_cons in Hrun.
    destruct (save_group_cases symbol_path w y m g) as [[Hg Hs]|[Hg Hs]];
      rewrite Hs in Hrun.
    { injection Hrun as <- <-. rewrite save_groups_cons. now rewrite Hs. }
    clear Hs. set (p := save_file_path symbol_path y m) in *.
    set (v := match files w !! p with
              | Some (Csv _ e) => merge_partition e g
              | _ => g
              end) in *.
    set (wa := write p (Csv UTC v) w) in *.
    assert (Hp : files w1 !! p = Some (Csv UTC v)).
    { pose proof (save_groups_untouched symbol_path rest wa (y, m) Hnot) as Hu.
      rewrite Hrun in Hu. cbn [fst snd] in Hu. fold p in Hu. rewrite Hu.
      unfold wa. now rewrite files_write, lookup_insert_eq. }
    assert (Hv : merge_partition v g = v).
    { unfold v. destruct (files w !! p) as [[tz e|]|] eqn:Hfile.
      - apply merge_partition_absorbs.
      - congruence.
      - apply merge_partition_self, (Hasc (y, m) g); [now left | exact Hfile]. }
    rewrite save_groups_cons.
    destruct (save_group_cases symbol_path w1 y m g) as [[Hg1 _]|[_ Hs1]].
    { fold p in Hg1. congruence. }
    rewrite Hs1. fold p. rewrite Hp, Hv, (write_same p _ w1 Hp).
    apply (IH wa Hnd'); [|exact Hrun].
    intros k g' Hin Hnone. apply (Hasc k g'); [now right|].
    rewrite <- Hnone. unfold wa. rewrite files_write, lookup_insert_ne;
      [reflexivity|].
    intros Heq. apply save_file_path_inj in Heq as [H1 H2].
    apply Hnot, in_map_iff. exists (k, g'). split; [|assumption].
    destruct k. simpl in *. congruence.
Qed.

End SaveFacts.

(** ** The claims *)

Import FrameFacts MergeFacts PathFacts SaveFacts.

Lemma save_group_print (symbol_path : string) (w : World) (m : Message)
    (g : (Z * Z) * DataFrame) :
  save_group symbol_path (print m w) g =
  (print m (save_group symbol_path w g).1, (save_group symbol_path w g).2).
Proof.
  destruct g as [[year month] group_df]. unfold save_group.
  change (files (print m w)) with (files w).
  destruct (files w !! save_file_path symbol_path year month) as [[tz e|]|];
    reflexivity.
Qed.

Lemma save_groups_print (symbol_path : string)
    (groups : list ((Z * Z) * DataFrame)) (w : World) (m : Message) :
  save_groups symbol_path groups (print m w) =
  (print m (save_groups symbol_path groups w).1,
   (save_groups symbol_path groups w).2).
Proof.
  revert w. induction groups as [|g rest IH]; intros w; [reflexivity|].
  rewrite !save_groups_cons, save_group_print.
  destruct (save_group symbol_path w g) as [w1 [[]|e]]; cbn [fst snd].
  - apply IH.
  - reflexivity.
Qed.



Lemma ascending_two_months : ascending Sample.two_months.
Proof.
  unfold ascending, Sample.two_months.
  repeat (constructor; [|repeat constructor; vm_compute; reflexivity]).
  constructor.
Qed.




(** *** The reconciler *)

Lemma fold_max_spec (l : list Z) (a : Z) :
  a <= fold_left Z.max l a /\
  (forall t, In t l -> t <= fold_left Z.max l a) /\
  (fold_left Z.max l a = a \/ In (fold_left Z.max l a) l).
Proof.
  revert a. induction l as [|x l IH]; intros a; simpl.
  - split; [lia|]. split; [contradiction | now left].
  - destruct (IH (Z.max a x)) as (H1 & H2 & H3).
    split; [lia|]. split.
    + intros t [<-|Ht]; [lia | now apply H2].
    + destruct H3 as [H3|H3]; [|right; now right].
      rewrite H3. destruct (Z.max_spec a x) as [[_ ->]|[_ ->]];
        [right; now left | now left].
Qed.

Lemma index_max_spec (df : DataFrame) (T : Z) :
  index_max df = Some T ->
  In T (index df) /\ forall t, In t (index df) -> t <= T.
Proof.
  destruct df as [|r rest]; simpl; [discriminate|]. intros [= <-].
  destruct (fold_max_spec (index rest) (ts r)) as (H1 & H2 & H3).
  split.
  - destruct H3 as [->|H3]; [now left | now right].
  - intros t [<-|Ht]; [assumption | now apply H2].
Qed.

Lemma floor_D_spec (T : Z) :
  Time.floor_D T <= T < Time.floor_D T + Time.NS_PER_DAY /\
  Time.floor_D T mod Time.NS_PER_DAY = 0.
Proof.
  unfold Time.floor_D.
  assert (Hpos : 0 < Time.NS_PER_DAY) by reflexivity.
  pose proof (Z.mod_pos_bound T _ Hpos) as Hb.
  split; [lia|].
  rewrite Zminus_mod_idemp_r, Z.sub_diag. reflexivity.
Qed.

Lemma requests_save_local_data (symbol_path : string) (df : DataFrame)
    (w : World) :
  requests (_save_local_data symbol_path df w).1 = requests w.
Proof.
  unfold _save_local_data.
  pose proof (save_groups_frame symbol_path (groupby_year_month df) w)
    as [Hw _].
  destruct (save_groups symbol_path (groupby_year_month df) w)
    as [w1 [[]|e]]; cbn [fst snd] in *; now rewrite Hw.
Qed.

(** The requests [fetch_new] adds: one when the window is not empty, none
    otherwise. *)
Lemma requests_fetch_new
    (fetch : string -> Interval -> OfferSide -> Z -> Z -> outcome DataFrame)
    (symbol_path dukascopy_symbol : string) (fetch_start_date end_date : Z)
    (dfs : list DataFrame) (w : World) :
  requests (fetch_new fetch symbol_path dukascopy_symbol fetch_start_date
                      end_date dfs w).1 =
  requests w ++
    (if fetch_start_date <? end_date
     then [mkRequest dukascopy_symbol INTERVAL_TICK OFFER_SIDE_BID
                     fetch_start_date end_date]
     else []).
Proof.
  unfold fetch_new, _fetch_from_dukascopy.
  destruct (fetch_start_date <? end_date); [|simpl; now rewrite app_nil_r].
  destruct (fetch _ _ _ _ _) as [new_df|e]; [|reflexivity].
  destruct (empty new_df); cbn [negb]; [reflexivity|].
  match goal with
  | |- context [_save_local_data ?sp ?df ?w0] =>
      pose proof (requests_save_local_data sp df w0) as Hr;
      destruct (_save_local_data sp df w0) as [w3 [[]|e]]
  end; cbn [fst snd requests sent print with_stdout] in *; exact Hr.
Qed.

(** C1. With a cache that is not empty and whose latest label is [T], the
    window starts at [D], the start of the day of [T]; the frames kept from
    the cache hold exactly the cached rows before [D]; and what is asked of
    the remote, for this symbol, is the instants of [D, end_date): one
    request with these bounds when the interval is not empty. *)
Theorem C1_refetch_from_day_start
    (fetch : string -> Interval -> OfferSide -> Z -> Z -> outcome DataFrame)
    (symbol_path dukascopy_symbol : string) (local_df : DataFrame)
    (start_date end_date : Z) (w : World) (T : Z) :
  index_max local_df = Some T ->
  let D := Time.floor_D T in
  let kept := reconcile local_df start_date w in
  let after := fetch_new fetch symbol_path dukascopy_symbol kept.1.1 end_date
                         kept.1.2 kept.2 in
  (In T (index local_df) /\ forall t, In t (index local_df) -> t <= T) /\
  (D <= T < D + Time.NS_PER_DAY /\ D mod Time.NS_PER_DAY = 0) /\
  kept.1.1 = D /\
  concat kept.1.2 = before D local_df /\
  (forall r, In r (concat kept.1.2) <-> In r local_df /\ ts r < D) /\
  requests after.1 =
    requests w ++
      (if D <? end_date
       then [mkRequest dukascopy_symbol INTERVAL_TICK OFFER_SIDE_BID D end_date]
       else []) /\
  (forall t,
     (exists q, In q (drop (length (requests w)) (requests after.1)) /\
                req_symbol q = dukascopy_symbol /\
                req_start q <= t < req_end q) <->
     D <= t < end_date).
Proof.
  intros HT D kept after.
  assert (Hkept : kept = (D, if negb (empty (before D local_df))
                             then [before D local_df] else [],
                          print (FoundLocalDataUpTo T) w)).
  { unfold kept, reconcile. now rewrite HT. }
  assert (Hconcat : concat kept.1.2 = before D local_df).
  { rewrite Hkept. cbn [fst snd].
    destruct (before D local_df); simpl; [reflexivity | now rewrite app_nil_r]. }
  assert (Hreq : requests after.1 =
    requests w ++
      (if D <? end_date
       then [mkRequest dukascopy_symbol INTERVAL_TICK OFFER_SIDE_BID D end_date]
       else [])).
  { unfold after. rewrite requests_fetch_new, Hkept. reflexivity. }
  split; [now apply index_max_spec|].
  split; [apply floor_D_spec|].
  split; [now rewrite Hkept|].
  split; [exact Hconcat|].
  split; [intros r; rewrite Hconcat; apply In_before|].
  split; [exact Hreq|].
  intros t. rewrite Hreq, drop_app_length.
  destruct (Z.ltb_spec D end_date) as [Hlt|Hge].
  - split.
    + intros (q & [<-|[]] & _ & Hq). exact Hq.
    + intros Ht. eexists. split; [now left|]. split; [reflexivity | exact Ht].
  - split; [intros (q & [] & _) | lia].
Qed.

Lemma C1_refetch_from_day_start_witness :
  index_max Sample.partial_day =
    Some (Sample.day_2025_04_25 + 12 * Sample.hour) /\
  (reconcile Sample.partial_day 0 (Sample.world_at 0 ∅)).1.1 =
    Sample.day_2025_04_25.
Proof.
  assert (H : index_max Sample.partial_day =
                Some (Sample.day_2025_04_25 + 12 * Sample.hour))
    by reflexivity.
  split; [exact H|].
  destruct (C1_refetch_from_day_start Sample.failing_remote
              "out/raw_dukascopy_data/EUR_USD" "EUR/USD" Sample.partial_day 0
              (Sample.day_2025_04_25 + 30 * Sample.hour)
              (Sample.world_at 0 ∅) _ H) as (_ & _ & Hstart & _).
  rewrite Hstart. reflexivity.
Defined.

(** *** The frame handed to the export *)

Lemma final_dataset_eq (dfs : list DataFrame) (start_date end_date : Z) :
  final_dataset dfs start_date end_date =
  loc start_date end_date (sort_index (drop_duplicates_first (concat dfs))).
Proof. reflexivity. Qed.

(** The merged frame never carries a label twice, and the row it keeps at
    a label is the first one of the concatenation. *)
Lemma final_dataset_first (dfs : list DataFrame) (start_date end_date : Z)
    (r : Row) :
  In r (final_dataset dfs start_date end_date) <->
  first_at (ts r) (concat dfs) = Some r /\ start_date <= ts r <= end_date.
Proof.
  rewrite final_dataset_eq, In_loc by apply sort_index_sorted.
  now rewrite In_sort_index, In_drop_duplicates_first.
Qed.

Lemma final_dataset_ascending (dfs : list DataFrame) (start_date end_date : Z) :
  ascending (final_dataset dfs start_date end_date).
Proof.
  rewrite final_dataset_eq.
  apply loc_ascending, sort_index_ascending, NoDup_drop_duplicates_first.
Qed.

Lemma tick_a_not_tick_b : Sample.tick_a <> Sample.tick_b.
Proof.
  intros H.
  apply (f_equal (fun q => PrimFloat.eqb (bidPrice q) (bidPrice Sample.tick_a)))
    in H.
  vm_compute in H. discriminate H.
Qed.

(** C2, at an input where the code departs from it. The cache holds a tick
    of 2025-04-24 14:00 with the values [tick_a]; the remote, asked for the
    window from 2025-04-25 00:00 on, also returns a tick at that label with
    the values [tick_b]. The exported frame keeps the cached [tick_a] at
    that label, while the cache partition written by the same run keeps the
    fetched [tick_b]. The exported frame carries no label twice. *)
Theorem C2_cached_row_kept_on_conflict :
  let w0 := Sample.world_at (Sample.day_2025_04_25 + 30 * Sample.hour)
                            Sample.partial_day_cache in
  let w1 := (get Sample.generous_remote Sample.known __init__ 1
                 [("EUR/USD", "EURUSD")] "out" None w0).1.2 in
  files w1 !! Sample.eur_export =
    Some (Csv "Europe/Helsinki"
            [(Sample.day_2025_04_25 - 10 * Sample.hour, Sample.tick_a);
             (Sample.day_2025_04_25 + 11 * Sample.hour, Sample.tick_b)]) /\
  files w1 !! Sample.eur_cache =
    Some (Csv UTC
            [(Sample.day_2025_04_25 - 10 * Sample.hour, Sample.tick_b);
             (Sample.day_2025_04_25 + 10 * Sample.hour, Sample.tick_a);
             (Sample.day_2025_04_25 + 11 * Sample.hour, Sample.tick_b);
             (Sample.day_2025_04_25 + 12 * Sample.hour, Sample.tick_b)]) /\
  requests w1 =
    [mkRequest "EUR/USD" INTERVAL_TICK OFFER_SIDE_BID Sample.day_2025_04_25
               (Sample.day_2025_04_25 + 30 * Sample.hour)] /\
  Sample.tick_a <> Sample.tick_b.
Proof.
  split; [vm_compute; reflexivity|].
  split; [vm_compute; reflexivity|].
  split; [vm_compute; reflexivity|].
  exact tick_a_not_tick_b.
Qed.

(** C9, as stated, fails: a row whose label is the end of the desired
    window is exported. *)
Lemma C9_row_at_end_is_exported :
  let end_date := Sample.day_2025_04_25 + 30 * Sample.hour in
  let w0 := Sample.world_at end_date ∅ in
  let w1 := (get Sample.boundary_remote Sample.known __init__ 1
                 [("EUR/USD", "EURUSD")] "out" None w0).1.2 in
  files w1 !! Sample.eur_export =
    Some (Csv "Europe/Helsinki"
            [(end_date - Sample.hour, Sample.tick_a);
             (end_date, Sample.tick_b)]) /\
  In (end_date, Sample.tick_b)
     (final_dataset [[(end_date - Sample.hour, Sample.tick_a);
                      (end_date, Sample.tick_b)]]
                    (Time.minus_months end_date 1) end_date) /\
  ~ (ts (end_date, Sample.tick_b) < end_date).
Proof.
  split; [vm_compute; reflexivity|].
  split; [vm_compute; right; left; reflexivity|].
  vm_compute. discriminate.
Qed.

(** C9, as the code has it. The frame handed to the export is the merged
    frame cut to the closed interval from [start_date] to [end_date]: a
    row of the merged frame is kept exactly when its label lies in it, the
    end included. *)
Theorem C9_final_dataset_closed_window (dfs_to_combine : list DataFrame)
    (start_date end_date : Z) (r : Row) :
  In r (final_dataset dfs_to_combine start_date end_date) <->
  In r (sort_index (drop_duplicates_first (concat dfs_to_combine))) /\
  start_date <= ts r <= end_date.
Proof.
  rewrite final_dataset_eq. apply In_loc, sort_index_sorted.
Qed.

(** *** The default broker timezone *)

(** C7. An unknown timezone name is rejected: the instance is returned as
    it was, and the world changes by the printed line only; a known name
    becomes the stored default. *)
Theorem C7_set_broker_timezone (known_timezone : string -> bool)
    (self : Dukascopy_Tick_Data_Fetcher) (timezone_name : string) (w : World) :
  let after := set_broker_timezone known_timezone self timezone_name w in
  (known_timezone timezone_name = false ->
     after.1 = self /\
     broker_timezone after.1 = broker_timezone self /\
     files after.2 = files w /\ requests after.2 = requests w /\
     utc_now after.2 = utc_now w /\ local_now after.2 = local_now w /\
     stdout after.2 = stdout w ++ [UnknownTimezone timezone_name]) /\
  (known_timezone timezone_name = true ->
     broker_timezone after.1 = timezone_name).
Proof.
  unfold set_broker_timezone. split; intros ->; cbn; auto 10.
Qed.

Lemma C7_set_broker_timezone_witness :
  (Sample.known "Invalid/Timezone" = false /\
   (set_broker_timezone Sample.known __init__ "Invalid/Timezone"
      (Sample.world_at 0 ∅)).1 = __init__) /\
  (Sample.known "America/New_York" = true /\
   broker_timezone
     (set_broker_timezone Sample.known __init__ "America/New_York"
        (Sample.world_at 0 ∅)).1 = "America/New_York").
Proof.
  split.
  - split; [reflexivity|].
    apply (proj1 (C7_set_broker_timezone Sample.known __init__ "Invalid/Timezone"
                    (Sample.world_at 0 ∅))).
    reflexivity.
  - split; [reflexivity|].
    apply (proj2 (C7_set_broker_timezone Sample.known __init__ "America/New_York"
                    (Sample.world_at 0 ∅))).
    reflexivity.
Defined.

(** *** The cache layout *)

Lemma replace_slash_no_slash (s : string) :
  Path.has_char "/" (Path.replace_slash s) = false.
Proof.
  induction s as [|c s IH]; simpl; [reflexivity|].
  rewrite IH, orb_false_r.
  destruct (Ascii.eqb_spec c "/") as [->|Hne]; [reflexivity|].
  now apply Ascii.eqb_neq.
Qed.

Lemma replace_slash_nonempty (s : string) :
  s <> EmptyString -> Path.replace_slash s <> EmptyString.
Proof. destruct s; [congruence | discriminate]. Qed.

Lemma fmt02d_two_digits (month : Z) :
  1 <= month <= 12 -> String.length (Path.fmt02d month) = 2%nat.
Proof.
  intros H.
  assert (E : exists k : nat, month = Z.of_nat k /\ (1 <= k <= 12)%nat)
    by (exists (Z.to_nat month); lia).
  destruct E as (k & -> & Hk). clear H.
  do 13 (destruct k as [|k]; [try lia; reflexivity|]).
  lia.
Qed.

(** C8, as stated, fails: the cache directory is [raw_dukascopy_data], not
    [raw_cache]. *)
Lemma C8_cache_directory_is_not_raw_cache :
  save_file_path (symbol_path_of "out" "EUR/USD") 2025 4 =
    "out/raw_dukascopy_data/EUR_USD/2025/04.csv" /\
  spec_cache_path "out" "EUR/USD" 2025 4 = "out/raw_cache/EUR_USD/2025/04.csv" /\
  save_file_path (symbol_path_of "out" "EUR/USD") 2025 4 <>
    spec_cache_path "out" "EUR/USD" 2025 4.
Proof.
  split; [reflexivity|]. split; [reflexivity|].
  vm_compute. discriminate.
Qed.

(** C8, as the code has it. For an output directory that is not empty and
    does not end in a slash, and a symbol that is not empty, the partition
    file of a (year, month) that is written is
    [<output_dir>/raw_dukascopy_data/<symbol, slashes as underscores>/<year>/<month, two digits>.csv],
    and the file that is read is the same one. *)
Theorem C8_cache_file_layout (output_dir dukascopy_symbol : string)
    (year month : Z) :
  output_dir <> EmptyString -> Path.endswith_sep output_dir = false ->
  dukascopy_symbol <> EmptyString ->
  save_file_path (symbol_path_of output_dir dukascopy_symbol) year month =
    output_dir +:+ "/raw_dukascopy_data/"
      +:+ Path.replace_slash dukascopy_symbol +:+ "/" +:+ Path.str year
      +:+ "/" +:+ Path.fmt02d month +:+ ".csv" /\
  load_file_path (symbol_path_of output_dir dukascopy_symbol) year month =
    save_file_path (symbol_path_of output_dir dukascopy_symbol) year month /\
  (1 <= month <= 12 -> String.length (Path.fmt02d month) = 2%nat).
Proof.
  intros Hne Hend Hsym.
  split; [|split; [reflexivity | apply fmt02d_two_digits]].
  rewrite save_file_path_eq. unfold symbol_path_of.
  assert (Hdir : Path.as_dir output_dir = output_dir +:+ "/").
  { unfold Path.as_dir. rewrite Hend.
    destruct output_dir; [contradiction | reflexivity]. }
  rewrite (join_relative output_dir "raw_dukascopy_data") by reflexivity.
  rewrite join_relative
    by apply startswith_sep_has_char, replace_slash_no_slash.
  assert (Hraw : Path.as_dir (Path.as_dir output_dir +:+ "raw_dukascopy_data")
                 = Path.as_dir output_dir +:+ "raw_dukascopy_data" +:+ "/").
  { unfold Path.as_dir at 1.
    rewrite endswith_sep_append by (discriminate || reflexivity).
    replace (Path.is_empty (Path.as_dir output_dir +:+ "raw_dukascopy_data"))
      with false.
    - cbn [orb]. apply append_assoc.
    - destruct (Path.as_dir output_dir); reflexivity. }
  rewrite Hraw.
  assert (Hsp : Path.as_dir
                  ((Path.as_dir output_dir +:+ "raw_dukascopy_data" +:+ "/")
                     +:+ Path.replace_slash dukascopy_symbol)
                = (Path.as_dir output_dir +:+ "raw_dukascopy_data" +:+ "/")
                    +:+ Path.replace_slash dukascopy_symbol +:+ "/").
  { unfold Path.as_dir at 1.
    rewrite endswith_sep_append
      by (apply replace_slash_nonempty, Hsym || apply replace_slash_no_slash).
    match goal with |- context [Path.is_empty ?x] =>
      replace (Path.is_empty x) with false end.
    - cbn [orb]. apply append_assoc.
    - pose proof (replace_slash_nonempty _ Hsym) as Hr.
      destruct (Path.as_dir output_dir); cbn; [|reflexivity].
      reflexivity. }
  rewrite Hsp, Hdir. rewrite !append_assoc. reflexivity.
Qed.

Lemma C8_cache_file_layout_witness :
  ("out" <> EmptyString /\ Path.endswith_sep "out" = false /\
   "EUR/USD" <> EmptyString) /\
  save_file_path (symbol_path_of "out" "EUR/USD") 2025 4 =
    "out" +:+ "/raw_dukascopy_data/" +:+ Path.replace_slash "EUR/USD" +:+ "/"
      +:+ Path.str 2025 +:+ "/" +:+ Path.fmt02d 4 +:+ ".csv".
Proof.
  assert (H1 : "out" <> EmptyString) by discriminate.
  assert (H2 : Path.endswith_sep "out" = false) by reflexivity.
  assert (H3 : "EUR/USD" <> EmptyString) by discriminate.
  split; [tauto|].
  apply (proj1 (C8_cache_file_layout "out" "EUR/USD" 2025 4 H1 H2 H3)).
Defined.

(** *** One symbol of a run *)

Lemma with_stdout_id (w : World) : with_stdout (stdout w) w = w.
Proof. now destruct w. Qed.

Lemma load_month_frame (symbol_path : string) (acc : list DataFrame * World)
    (dt : Z * Z) :
  (load_month symbol_path acc dt).2 =
  with_stdout (stdout (load_month symbol_path acc dt).2) acc.2.
Proof.
  destruct acc as [dfs w]. unfold load_month. cbn [snd].
  destruct (files w !! load_file_path symbol_path dt.1 dt.2) as [f|];
    [|now rewrite with_stdout_id].
  destruct (read_csv f) as [df|e]; [|reflexivity].
  destruct (negb (empty df)); now rewrite with_stdout_id.
Qed.

Lemma fold_load_month_frame (symbol_path : string) (l : list (Z * Z))
    (acc : list DataFrame * World) :
  (fold_left (load_month symbol_path) l acc).2 =
  with_stdout (stdout (fold_left (load_month symbol_path) l acc).2) acc.2.
Proof.
  revert acc. induction l as [|dt l IH]; intros acc; simpl.
  - now rewrite with_stdout_id.
  - rewrite IH at 1. rewrite load_month_frame. reflexivity.
Qed.

(** Loading the cache prints warnings and changes nothing else. *)
Lemma load_frame (symbol_path : string) (start_date end_date : Z) (w : World) :
  (_load_local_data symbol_path start_date end_date w).2 =
  with_stdout (stdout (_load_local_data symbol_path start_date end_date w).2) w.
Proof.
  unfold _load_local_data.
  pose proof (fold_load_month_frame symbol_path
                (Time.month_starts start_date end_date) ([], w)) as H.
  destruct (fold_left _ _ _) as [dfs w1]. cbn [snd] in H.
  destruct dfs; exact H.
Qed.

Lemma load_sorted (symbol_path : string) (start_date end_date : Z) (w : World) :
  sorted (_load_local_data symbol_path start_date end_date w).1.
Proof.
  unfold _load_local_data.
  destruct (fold_left _ _ _) as [dfs w1].
  destruct dfs; cbn [fst]; [constructor|].
  apply loc_sorted_sorted, sort_index_sorted.
Qed.

(** What is loaded lies in the desired window, both ends included. *)
Lemma load_in_window (symbol_path : string) (start_date end_date : Z)
    (w : World) (r : Row) :
  In r (_load_local_data symbol_path start_date end_date w).1 ->
  start_date <= ts r <= end_date.
Proof.
  unfold _load_local_data.
  destruct (fold_left _ _ _) as [dfs w1].
  destruct dfs; cbn [fst]; [contradiction|].
  intros H. now apply In_loc in H; [|apply sort_index_sorted].
Qed.

Lemma reconcile_frame (local_df : DataFrame) (start_date : Z) (w : World) :
  (reconcile local_df start_date w).2 =
  with_stdout (stdout (reconcile local_df start_date w).2) w.
Proof.
  unfold reconcile. destruct (index_max local_df); reflexivity.
Qed.

Lemma output_path_of_local_now (output_dir target_symbol tz : string)
    (w1 w2 : World) :
  local_now w1 = local_now w2 ->
  output_path_of output_dir target_symbol tz w1 =
  output_path_of output_dir target_symbol tz w2.
Proof.
  intros H. unfold output_path_of, today_str. now rewrite H.
Qed.

Lemma requests_export (output_dir dukascopy_symbol target_symbol tz : string)
    (raw_df : DataFrame) (w : World) :
  requests (export output_dir dukascopy_symbol target_symbol tz raw_df w) =
  requests w.
Proof. unfold export. now destruct (empty raw_df). Qed.

Lemma files_export (output_dir dukascopy_symbol target_symbol tz : string)
    (raw_df : DataFrame) (w : World) :
  files (export output_dir dukascopy_symbol target_symbol tz raw_df w) =
  if empty raw_df then files w
  else <[output_path_of output_dir target_symbol tz w := Csv tz raw_df]>
         (files w).
Proof. unfold export. now destruct (empty raw_df). Qed.

(** The requests of one symbol are the ones its fetch makes. *)
Lemma requests_process_symbol
    (fetch : string -> Interval -> OfferSide -> Z -> Z -> outcome DataFrame)
    (output_dir tz : string) (start_date end_date : Z) (w : World)
    (dukascopy_symbol target_symbol : string) :
  let wa := print (ProcessingSymbol dukascopy_symbol target_symbol)
                  (print Separator w) in
  let loaded := _load_local_data (symbol_path_of output_dir dukascopy_symbol)
                                 start_date end_date wa in
  let kept := reconcile loaded.1 start_date loaded.2 in
  requests (process_symbol fetch output_dir tz start_date end_date w
                           (dukascopy_symbol, target_symbol)) =
  requests w ++
    (if kept.1.1 <? end_date
     then [mkRequest dukascopy_symbol INTERVAL_TICK OFFER_SIDE_BID kept.1.1
                     end_date]
     else []).
Proof.
  intros wa loaded kept.
  assert (Hreq : requests kept.2 = requests w).
  { unfold kept. rewrite reconcile_frame. cbn [requests with_stdout].
    unfold loaded. rewrite load_frame. reflexivity. }
  rewrite <- Hreq.
  rewrite <- (requests_fetch_new fetch (symbol_path_of output_dir dukascopy_symbol)
                dukascopy_symbol kept.1.1 end_date kept.1.2 kept.2).
  unfold process_symbol. fold wa. fold loaded.
  destruct loaded as [local_df wb] eqn:Hl. cbn [fst snd] in kept.
  fold kept. destruct kept as [[fetch_start_date dfs] wc]. cbn [fst snd].
  destruct (fetch_new _ _ _ _ _ _ _) as [wd [dfs'|]]; cbn [fst];
    [|reflexivity].
  destruct dfs'; [reflexivity | apply requests_export].
Qed.




(** *** A failing fetch *)

(** When the fetch of a symbol raises, the symbol ends with the error
    line, right after the request. *)
Lemma process_symbol_fetch_raises
    (fetch : string -> Interval -> OfferSide -> Z -> Z -> outcome DataFrame)
    (output_dir tz : string) (start_date end_date : Z) (w : World)
    (dukascopy_symbol target_symbol e : string) :
  let wa := print (ProcessingSymbol dukascopy_symbol target_symbol)
                  (print Separator w) in
  let loaded := _load_local_data (symbol_path_of output_dir dukascopy_symbol)
                                 start_date end_date wa in
  let kept := reconcile loaded.1 start_date loaded.2 in
  kept.1.1 < end_date ->
  fetch dukascopy_symbol INTERVAL_TICK OFFER_SIDE_BID kept.1.1 end_date
    = Raise e ->
  process_symbol fetch output_dir tz start_date end_date w
                 (dukascopy_symbol, target_symbol) =
  print (ErrorFetching dukascopy_symbol e)
        (sent (mkRequest dukascopy_symbol INTERVAL_TICK OFFER_SIDE_BID
                         kept.1.1 end_date)
              (print (FetchingNewData kept.1.1 end_date) kept.2)).
Proof.
  intros wa loaded kept Hopen Hraise.
  unfold process_symbol. fold wa. fold loaded.
  destruct loaded as [local_df wb]. cbn [fst snd] in *. fold kept.
  destruct kept as [[fetch_start_date dfs] wc]. cbn [fst snd] in *.
  unfold fetch_new, _fetch_from_dukascopy.
  apply Z.ltb_lt in Hopen. rewrite Hopen, Hraise. reflexivity.
Qed.



(** *** The timezone of a run *)

(** Every file the persist loop leaves behind was there before or is a
    table in UTC. *)
Lemma save_groups_writes_utc (symbol_path : string)
    (groups : list ((Z * Z) * DataFrame)) (w : World) (p : string) (f : file) :
  files (save_groups symbol_path groups w).1 !! p = Some f ->
  files w !! p = Some f \/ exists rows, f = Csv UTC rows.
Proof.
  revert w. induction groups as [|[[y m] g] rest IH]; intros w; [now left|].
  rewrite save_groups_cons.
  destruct (save_group_cases symbol_path w y m g) as [[_ ->]|[_ ->]];
    [now left|].
  intros H. apply IH in H as [H|H]; [|now right].
  rewrite files_write in H. apply lookup_insert_Some in H as [[_ <-]|[_ H]].
  - right. eexists. reflexivity.
  - now left.
Qed.

(** Every file one symbol leaves behind was there before, or is a table in
    UTC, or is a table in the timezone of the run. *)
Lemma process_symbol_writes
    (fetch : string -> Interval -> OfferSide -> Z -> Z -> outcome DataFrame)
    (output_dir tz : string) (start_date end_date : Z) (w : World)
    (symbol : string * string) (p : string) (f : file) :
  files (process_symbol fetch output_dir tz start_date end_date w symbol) !! p
    = Some f ->
  files w !! p = Some f \/
  exists rows, f = Csv UTC rows \/ f = Csv tz rows.
Proof.
  destruct symbol as [dukascopy_symbol target_symbol].
  unfold process_symbol.
  set (wa := print (ProcessingSymbol dukascopy_symbol target_symbol)
                   (print Separator w)).
  pose proof (load_frame (symbol_path_of output_dir dukascopy_symbol)
                start_date end_date wa) as Hload.
  destruct (_load_local_data _ _ _ wa) as [local_df wb]. cbn [snd] in Hload.
  pose proof (reconcile_frame local_df start_date wb) as Hrec.
  destruct (reconcile local_df start_date wb) as [[fetch_start_date dfs] wc].
  cbn [snd] in Hrec.
  assert (Hwc : files wc = files w) by now rewrite Hrec, Hload.
  clear Hrec Hload.
  assert (Hfetch :
    forall f', files (fetch_new fetch (symbol_path_of output_dir dukascopy_symbol)
                        dukascopy_symbol fetch_start_date end_date dfs wc).1
                 !! p = Some f' ->
          files w !! p = Some f' \/ exists rows, f' = Csv UTC rows).
  { intros f'. unfold fetch_new, _fetch_from_dukascopy.
    destruct (fetch_start_date <? end_date);
      [|cbn; rewrite Hwc; now left].
    destruct (fetch _ _ _ _ _) as [new_df|e];
      [|cbn; rewrite Hwc; now left].
    destruct (negb (empty new_df)); [|cbn; rewrite Hwc; now left].
    unfold _save_local_data.
    match goal with |- context [save_groups ?sp ?gs ?w0] =>
      pose proof (save_groups_writes_utc sp gs w0 p f') as Hs;
      destruct (save_groups sp gs w0) as [w3 [[]|e]]
    end; cbn in Hs |- *; rewrite Hwc in Hs;
      (intros H; apply Hs in H; tauto). }
  destruct (fetch_new _ _ _ _ _ _ _) as [wd [dfs'|]]; cbn [fst] in Hfetch.
  - destruct dfs' as [|d l].
    + cbn [files print with_stdout]. intros H. apply Hfetch in H as [H|[rows ->]];
        [now left | right; exists rows; now left].
    + rewrite files_export. destruct (empty _).
      * intros H. apply Hfetch in H as [H|[rows ->]];
          [now left | right; exists rows; now left].
      * intros H. apply lookup_insert_Some in H as [[_ <-]|[_ H]].
        -- right. eexists. right. reflexivity.
        -- apply Hfetch in H as [H|[rows ->]];
             [now left | right; exists rows; now left].
  - intros H. apply Hfetch in H as [H|[rows ->]];
      [now left | right; exists rows; now left].
Qed.

Lemma run_writes
    (fetch : string -> Interval -> OfferSide -> Z -> Z -> outcome DataFrame)
    (output_dir tz : string) (start_date end_date : Z)
    (symbols : list (string * string)) (w : World) (p : string) (f : file) :
  files (fold_left (process_symbol fetch output_dir tz start_date end_date)
                   symbols w) !! p = Some f ->
  files w !! p = Some f \/
  exists rows, f = Csv UTC rows \/ f = Csv tz rows.
Proof.
  revert w. induction symbols as [|symbol symbols IH]; intros w; [now left|].
  simpl. intros H. apply IH in H as [H|H]; [|now right].
  now apply process_symbol_writes in H.
Qed.


(** ** Further properties of the cache loader *)

Lemma files_load_month (symbol_path : string) (acc : list DataFrame * World)
    (dt : Z * Z) :
  files (load_month symbol_path acc dt).2 = files acc.2.
Proof. now rewrite load_month_frame. Qed.

Lemma concat_snoc (dfs : list DataFrame) (df : DataFrame) :
  concat (dfs ++ [df]) = concat dfs ++ df.
Proof.
  unfold concat. rewrite concat_app. simpl. now rewrite app_nil_r.
Qed.

(** One month adds the rows of its partition file, when the file parses. *)
Lemma load_month_rows (symbol_path : string) (acc : list DataFrame * World)
    (dt : Z * Z) (r : Row) :
  In r (concat (load_month symbol_path acc dt).1) <->
  In r (concat acc.1) \/
  exists tz rows,
    files acc.2 !! load_file_path symbol_path dt.1 dt.2 = Some (Csv tz rows) /\
    In r rows.
Proof.
  destruct acc as [dfs w]. unfold load_month. cbn [fst snd].
  destruct (files w !! load_file_path symbol_path dt.1 dt.2) as [[tz rows|]|].
  - cbn [read_csv]. destruct rows as [|x rows]; cbn [empty negb fst].
    + split; [now left|]. intros [H|(tz' & rows' & [= _ <-] & [])]. exact H.
    + rewrite concat_snoc, in_app_iff. split.
      * intros [H|H]; [now left|]. right. now exists tz, (x :: rows).
      * intros [H|(tz' & rows' & [= _ <-] & H)]; [now left | now right].
  - cbn [read_csv fst]. split; [now left|].
    intros [H|(tz & rows & [=] & _)]. exact H.
  - cbn [fst]. split; [now left|]. intros [H|(tz & rows & [=] & _)]. exact H.
Qed.

Lemma fold_load_month_rows (symbol_path : string) (l : list (Z * Z))
    (acc : list DataFrame * World) (r : Row) :
  In r (concat (fold_left (load_month symbol_path) l acc).1) <->
  In r (concat acc.1) \/
  exists dt tz rows,
    In dt l /\
    files acc.2 !! load_file_path symbol_path dt.1 dt.2 = Some (Csv tz rows) /\
    In r rows.
Proof.
  revert acc. induction l as [|dt l IH]; intros acc; simpl.
  - split; [now left|]. intros [H|(dt & tz & rows & [] & _)]. exact H.
  - rewrite IH, load_month_rows, files_load_month. split.
    + intros [[H|(tz & rows & Hf & Hr)]|(dt' & tz & rows & Hin & Hf & Hr)].
      * now left.
      * right. exists dt, tz, rows. auto.
      * right. exists dt', tz, rows. auto.
    + intros [H|(dt' & tz & rows & [<-|Hin] & Hf & Hr)].
      * left. now left.
      * left. right. now exists tz, rows.
      * right. now exists dt', tz, rows.
Qed.

Lemma In_load_local_data (symbol_path : string) (start_date end_date : Z)
    (w : World) (r : Row) :
  In r (_load_local_data symbol_path start_date end_date w).1 <->
  (exists dt tz rows,
     In dt (Time.month_starts start_date end_date) /\
     files w !! load_file_path symbol_path dt.1 dt.2 = Some (Csv tz rows) /\
     In r rows) /\
  start_date <= ts r <= end_date.
Proof.
  unfold _load_local_data.
  pose proof (fold_load_month_rows symbol_path
                (Time.month_starts start_date end_date) ([], w) r) as H.
  destruct (fold_left _ _ _) as [dfs w1]. cbn [fst snd] in H.
  assert (H' : In r (concat dfs) <->
               exists dt tz rows,
                 In dt (Time.month_starts start_date end_date) /\
                 files w !! load_file_path symbol_path dt.1 dt.2
                   = Some (Csv tz rows) /\ In r rows).
  { rewrite H. split; [intros [[]|H0]; exact H0 | now right]. }
  clear H. destruct dfs as [|df dfs].
  - cbn [fst]. split; [contradiction|]. intros [H _]. now apply H' in H.
  - cbn [fst]. rewrite In_loc by apply sort_index_sorted.
    now rewrite In_sort_index, H'.
Qed.


(** The warnings of one pass over the months: one per unparsable file. *)
Lemma fold_load_month_stdout (symbol_path : string) (l : list (Z * Z))
    (acc : list DataFrame * World) :
  stdout (fold_left (load_month symbol_path) l acc).2 =
  stdout acc.2 ++
  map (fun dt => WarningCouldNotLoad
                   (load_file_path symbol_path dt.1 dt.2) "ParserError")
      (List.filter
         (fun dt => match files acc.2 !! load_file_path symbol_path dt.1 dt.2 with
                    | Some Garbage => true
                    | _ => false
                    end) l).
Proof.
  revert acc. induction l as [|dt l IH]; intros acc; simpl.
  - now rewrite app_nil_r.
  - rewrite IH, files_load_month. destruct acc as [dfs w].
    unfold load_month at 1. cbn [snd].
    destruct (files w !! load_file_path symbol_path dt.1 dt.2) as [[tz rows|]|].
    + cbn [read_csv]. now destruct (negb (empty rows)).
    + cbn [read_csv snd stdout print with_stdout map].
      now rewrite <- app_assoc.
    + reflexivity.
Qed.


(** ** Further properties of the merges *)

Lemma concat_pair (a b : DataFrame) : concat [a; b] = a ++ b.
Proof. unfold concat. simpl. now rewrite app_nil_r. Qed.

(** The frame handed to the export is strictly ascending, so it carries no
    label twice, and at a label that the rows kept from the cache and the
    fetched rows share it holds the cached row: a fetched row is kept only
    at a label the cached frame does not have. *)
Theorem final_dataset_cached_first (cached fetched : DataFrame)
    (start_date end_date : Z) (r : Row) :
  ascending (final_dataset [cached; fetched] start_date end_date) /\
  (In r (final_dataset [cached; fetched] start_date end_date) <->
   (first_at (ts r) cached = Some r \/
    (~ In (ts r) (index cached) /\ first_at (ts r) fetched = Some r)) /\
   start_date <= ts r <= end_date).
Proof.
  split; [apply final_dataset_ascending|].
  rewrite final_dataset_first, concat_pair, first_at_app.
  destruct (first_at (ts r) cached) as [x|] eqn:Hc.
  - split; [tauto|]. intros [[H|[Hn _]] Hw]; [tauto|].
    exfalso. apply Hn. apply first_at_Some in Hc as [Hin <-].
    now apply In_index.
  - apply first_at_None in Hc. split; [tauto|].
    intros [[H|[_ H]] Hw]; [discriminate | tauto].
Qed.

Lemma In_index_merge_partition (e g : DataFrame) (t : Z) :
  In t (index (merge_partition e g)) <-> In t (index e) \/ In t (index g).
Proof.
  split.
  - intros H. apply in_map_iff in H as (r & <- & Hr).
    apply In_merge_partition in Hr as [H|[_ H]];
      apply last_at_Some in H as [H _]; [right | left]; now apply In_index.
  - intros H.
    destruct (last_at t g) as [x|] eqn:Hg.
    + pose proof Hg as Hg'. apply last_at_Some in Hg' as [_ <-].
      apply In_index, In_merge_partition. now left.
    + pose proof Hg as Hn. apply last_at_None in Hn.
      destruct H as [H|H]; [|contradiction].
      destruct (last_at t e) as [x|] eqn:He;
        [|apply last_at_None in He; contradiction].
      pose proof He as He'. apply last_at_Some in He' as [_ <-].
      apply In_index, In_merge_partition. right. split; [|exact He].
      now apply last_at_None.
Qed.

(** The partition merge loses no label and invents no row; its result is
    strictly ascending; and merging two batches one after the other gives
    what merging their concatenation gives: the newest row wins. *)
Theorem merge_partition_batches (existing_df first_df second_df : DataFrame) :
  ascending (merge_partition existing_df first_df) /\
  (forall t, In t (index (merge_partition existing_df first_df)) <->
             In t (index existing_df) \/ In t (index first_df)) /\
  (forall r, In r (merge_partition existing_df first_df) ->
             In r existing_df \/ In r first_df) /\
  merge_partition (merge_partition existing_df first_df) second_df =
    merge_partition existing_df (first_df ++ second_df).
Proof.
  split; [apply merge_partition_ascending|].
  split; [intros t; apply In_index_merge_partition|].
  split.
  { intros r Hr. apply In_merge_partition in Hr as [H|[_ H]];
      apply last_at_Some in H as [H _]; tauto. }
  apply ascending_unique; try apply merge_partition_ascending.
  intros r.
  rewrite (In_merge_partition (merge_partition existing_df first_df) second_df).
  rewrite (In_merge_partition existing_df (first_df ++ second_df)).
  rewrite last_at_app, index_app, in_app_iff.
  pose proof (ascending_NoDup _ (merge_partition_ascending existing_df first_df))
    as Hnd.
  destruct (last_at (ts r) second_df) as [x|] eqn:Hs.
  - assert (Hin : In (ts r) (index second_df)).
    { apply last_at_Some in Hs as [Hx <-]. now apply In_index. }
    split; intros [H|[Hn _]]; try (now left); exfalso; apply Hn; tauto.
  - assert (Hn : ~ In (ts r) (index second_df)) by now apply last_at_None.
    split.
    + intros [H|[_ H]]; [discriminate|].
      apply last_at_Some in H as [H _].
      apply In_merge_partition in H as [H|[Hnf H]]; [now left|].
      right. split; [tauto | exact H].
    + intros [H|[Hnf H]].
      * right. split; [exact Hn|]. apply last_at_unique; [exact Hnd|].
        apply In_merge_partition. now left.
      * right. split; [exact Hn|]. apply last_at_unique; [exact Hnd|].
        apply In_merge_partition. right. split; [tauto | exact H].
Qed.

(** Two (year, month) pairs name the same partition file under a symbol
    directory only when they are the same pair. *)
Theorem partition_path_one_to_one (symbol_path : string) (y1 m1 y2 m2 : Z) :
  save_file_path symbol_path y1 m1 = save_file_path symbol_path y2 m2 <->
  y1 = y2 /\ m1 = m2.
Proof.
  split; [apply save_file_path_inj | now intros [-> ->]].
Qed.

(** ** Further properties of the persist *)

(** Whatever holds of every file, and is kept by the two ways a partition
    is written, holds of every file after the loop. *)
Lemma save_groups_files_inv (symbol_path : string)
    (groups : list ((Z * Z) * DataFrame)) (Q : string -> file -> Prop) :
  (forall y m g tz e, In ((y, m), g) groups ->
     Q (save_file_path symbol_path y m) (Csv tz e) ->
     Q (save_file_path symbol_path y m) (Csv UTC (merge_partition e g))) ->
  (forall y m g, In ((y, m), g) groups ->
     Q (save_file_path symbol_path y m) (Csv UTC g)) ->
  forall w,
    (forall p f, files w !! p = Some f -> Q p f) ->
    forall p f, files (save_groups symbol_path groups w).1 !! p = Some f -> Q p f.
Proof.
  induction groups as [|[[y m] g] rest IH]; intros Hmerge Hnew w Hw;
    [exact Hw|].
  rewrite save_groups_cons.
  destruct (save_group_cases symbol_path w y m g) as [[_ ->]|[_ ->]];
    [exact Hw|].
  apply IH.
  - intros y' m' g' tz e Hin. apply Hmerge. now right.
  - intros y' m' g' Hin. apply Hnew. now right.
  - intros p f. rewrite files_write. intros H.
    apply lookup_insert_Some in H as [[<- <-]|[_ H]]; [|now apply Hw].
    destruct (files w !! save_file_path symbol_path y m) as [[tz e|]|] eqn:Hf.
    + apply (Hmerge y m g tz e); [now left | now apply Hw].
    + apply (Hnew y m g). now left.
    + apply (Hnew y m g). now left.
Qed.

Lemma save_groups_outcome (symbol_path : string)
    (groups : list ((Z * Z) * DataFrame)) (w : World) :
  (save_groups symbol_path groups w).2 = Ok tt \/
  (save_groups symbol_path groups w).2 = Raise "ParserError".
Proof.
  revert w. induction groups as [|[[y m] g] rest IH]; intros w; [now left|].
  rewrite save_groups_cons.
  destruct (save_group_cases symbol_path w y m g) as [[_ ->]|[_ ->]];
    [now right | apply IH].
Qed.

Lemma save_groups_Ok_parsable (symbol_path : string)
    (groups : list ((Z * Z) * DataFrame)) (w : World) :
  NoDup (map fst groups) ->
  (save_groups symbol_path groups w).2 = Ok tt ->
  forall k g, In (k, g) groups ->
    files w !! save_file_path symbol_path k.1 k.2 <> Some Garbage.
Proof.
  revert w. induction groups as [|[[y m] g] rest IH]; intros w Hnd Hok;
    [contradiction|].
  simpl in Hnd. inversion Hnd as [|k0 l0 Hnot Hnd']; subst.
  rewrite list_elem_of_In in Hnot.
  rewrite save_groups_cons in Hok.
  destruct (save_group_cases symbol_path w y m g) as [[_ Hs]|[Hg Hs]];
    rewrite Hs in Hok; [discriminate|].
  intros k g' [[= <- <-]|Hin]; [exact Hg|].
  specialize (IH _ Hnd' Hok k g' Hin).
  rewrite files_write, lookup_insert_ne in IH; [exact IH|].
  intros Heq. apply save_file_path_inj in Heq as [H1 H2].
  apply Hnot, in_map_iff. exists (k, g'). split; [|assumption].
  destruct k. simpl in *. congruence.
Qed.

Lemma save_groups_keeps_garbage (symbol_path : string)
    (groups : list ((Z * Z) * DataFrame)) (w : World) (p : string) :
  files w !! p = Some Garbage ->
  files (save_groups symbol_path groups w).1 !! p = Some Garbage.
Proof.
  revert w. induction groups as [|[[y m] g] rest IH]; intros w Hp;
    [exact Hp|].
  rewrite save_groups_cons.
  destruct (save_group_cases symbol_path w y m g) as [[_ ->]|[Hg ->]];
    [exact Hp|].
  apply IH. rewrite files_write, lookup_insert_ne; [exact Hp|].
  intros <-. contradiction.
Qed.

(** The persist returns normally exactly when no partition file it has a
    group for is unparsable; otherwise it raises the parser's error and
    prints nothing. An unparsable file is never overwritten. *)
Theorem save_local_data_outcome (symbol_path : string) (df_to_save : DataFrame)
    (w : World) :
  let saved := _save_local_data symbol_path df_to_save w in
  (saved.2 = Ok tt <->
   forall year month, group (year, month) df_to_save <> [] ->
     files w !! save_file_path symbol_path year month <> Some Garbage) /\
  (saved.2 = Ok tt /\ stdout saved.1 = stdout w ++ [SavedRawCache symbol_path]
   \/ saved.2 = Raise "ParserError" /\ stdout saved.1 = stdout w) /\
  (forall p, files w !! p = Some Garbage -> files saved.1 !! p = Some Garbage).
Proof.
  intros saved. unfold saved, _save_local_data.
  pose proof (save_groups_outcome symbol_path
                (groupby_year_month df_to_save) w) as Hout.
  pose proof (save_groups_Ok_parsable symbol_path
                (groupby_year_month df_to_save) w) as Hpars.
  pose proof (save_groups_keeps_garbage symbol_path
                (groupby_year_month df_to_save) w) as Hgarb.
  pose proof (save_groups_frame symbol_path
                (groupby_year_month df_to_save) w) as [Hframe _].
  pose proof (save_groups_ok symbol_path (groupby_year_month df_to_save) w)
    as Hok.
  destruct (save_groups symbol_path (groupby_year_month df_to_save) w)
    as [w1 o] eqn:Hrun. cbn [fst snd] in *.
  assert (Hstd : stdout w1 = stdout w) by now rewrite Hframe.
  split; [|split].
  - split.
    + intros Ho year month Hne.
      destruct o as [[]|e]; [|discriminate].
      apply (Hpars ltac:(rewrite groupby_keys; apply NoDup_group_keys)
                   eq_refl (year, month) (group (year, month) df_to_save)).
      now apply In_groupby.
    + intros Hall.
      destruct Hok as (w2 & Hrun2 & _).
      * rewrite groupby_keys. apply NoDup_group_keys.
      * intros [y m] g Hin. apply In_groupby in Hin as [-> Hne].
        now apply Hall.
      * injection Hrun2 as _ ->. reflexivity.
  - destruct Hout as [->| ->]; cbn [fst snd].
    + left. split; [reflexivity|].
      cbn [stdout print with_stdout]. now rewrite Hstd.
    + right. split; [reflexivity | exact Hstd].
  - intros p Hp. specialize (Hgarb p Hp).
    destruct o as [[]|e]; exact Hgarb.
Qed.

Lemma files_save_local_data (symbol_path : string) (df : DataFrame) (w : World) :
  files (_save_local_data symbol_path df w).1 =
  files (save_groups symbol_path (groupby_year_month df) w).1.
Proof.
  unfold _save_local_data.
  now destruct (save_groups symbol_path (groupby_year_month df) w)
    as [w1 [[]|e]].
Qed.

(** The persist keeps the partitions to their months: when every partition
    file of a symbol holds only rows of its own (year, month) before, so it
    does after. *)
Theorem save_local_data_keeps_months (symbol_path : string)
    (df_to_save : DataFrame) (w : World) :
  (forall year month tz rows,
     files w !! save_file_path symbol_path year month = Some (Csv tz rows) ->
     forall r, In r rows ->
       (Time.year (ts r), Time.month (ts r)) = (year, month)) ->
  forall year month tz rows,
    files (_save_local_data symbol_path df_to_save w).1
      !! save_file_path symbol_path year month = Some (Csv tz rows) ->
    forall r, In r rows ->
      (Time.year (ts r), Time.month (ts r)) = (year, month).
Proof.
  intros Hw year month tz rows Hfile.
  rewrite files_save_local_data in Hfile.
  revert year month tz rows Hfile.
  assert (H : forall p f,
    files (save_groups symbol_path (groupby_year_month df_to_save) w).1 !! p
      = Some f ->
    forall year month tz rows,
      p = save_file_path symbol_path year month -> f = Csv tz rows ->
      forall r, In r rows ->
        (Time.year (ts r), Time.month (ts r)) = (year, month)).
  { refine (save_groups_files_inv symbol_path _
              (fun p f => forall year month tz rows,
                 p = save_file_path symbol_path year month -> f = Csv tz rows ->
                 forall r, In r rows ->
                   (Time.year (ts r), Time.month (ts r)) = (year, month))
              _ _ w _).
    - intros y m g tz e Hin HQ year month tz' rows Hp [= _ <-] r Hr.
      apply In_groupby in Hin as [-> _].
      apply In_merge_partition in Hr as [H|[_ H]];
        apply last_at_Some in H as [H _].
      + apply In_group in H as [_ H].
        apply save_file_path_inj in Hp as [<- <-]. exact H.
      + now apply (HQ year month tz e Hp eq_refl).
    - intros y m g Hin year month tz rows Hp [= _ <-] r Hr.
      apply In_groupby in Hin as [-> _].
      apply In_group in Hr as [_ H].
      apply save_file_path_inj in Hp as [<- <-]. exact H.
    - intros p f Hf year month tz rows -> ->. now apply (Hw year month tz rows). }
  intros year month tz rows Hfile. now apply (H _ _ Hfile year month tz rows).
Qed.

(** The persist keeps the partitions ascending when what it is given is
    ascending: when every partition file of a symbol is strictly ascending
    before, so it is after. *)
Theorem save_local_data_keeps_ascending (symbol_path : string)
    (df_to_save : DataFrame) (w : World) :
  ascending df_to_save ->
  (forall year month tz rows,
     files w !! save_file_path symbol_path year month = Some (Csv tz rows) ->
     ascending rows) ->
  forall year month tz rows,
    files (_save_local_data symbol_path df_to_save w).1
      !! save_file_path symbol_path year month = Some (Csv tz rows) ->
    ascending rows.
Proof.
  intros Hdf Hw year month tz rows Hfile.
  rewrite files_save_local_data in Hfile.
  assert (H : forall p f,
    files (save_groups symbol_path (groupby_year_month df_to_save) w).1 !! p
      = Some f ->
    forall year month tz rows,
      p = save_file_path symbol_path year month -> f = Csv tz rows ->
      ascending rows).
  { refine (save_groups_files_inv symbol_path _
              (fun p f => forall year month tz rows,
                 p = save_file_path symbol_path year month -> f = Csv tz rows ->
                 ascending rows)
              _ _ w _).
    - intros y m g tz0 e Hin HQ year' month' tz' rows' Hp [= _ <-].
      apply merge_partition_ascending.
    - intros y m g Hin year' month' tz' rows' Hp [= _ <-].
      apply In_groupby in Hin as [-> _]. now apply group_ascending.
    - intros p f Hf year' month' tz' rows' -> ->.
      now apply (Hw year' month' tz' rows'). }
  now apply (H _ _ Hfile year month tz rows).
Qed.

Lemma one_tick_cache_lookup (year month : Z) (tz : string) (rows : DataFrame) :
  files (Sample.world_at 0 Sample.one_tick_cache)
    !! save_file_path "out/raw_dukascopy_data/EUR_USD" year month
    = Some (Csv tz rows) ->
  (year, month) = (2025, 4) /\
  rows = [(Sample.day_2025_04_25 + Sample.hour, Sample.tick_a)].
Proof.
  cbn [files Sample.world_at]. unfold Sample.one_tick_cache. intros H.
  apply lookup_singleton_Some in H as [Hp [= _ <-]].
  split; [|reflexivity].
  change Sample.eur_cache
    with (save_file_path "out/raw_dukascopy_data/EUR_USD" 2025 4) in Hp.
  apply save_file_path_inj in Hp as [<- <-]. reflexivity.
Qed.

Lemma save_local_data_keeps_months_witness :
  (forall year month tz rows,
     files (Sample.world_at 0 Sample.one_tick_cache)
       !! save_file_path "out/raw_dukascopy_data/EUR_USD" year month
       = Some (Csv tz rows) ->
     forall r, In r rows ->
       (Time.year (ts r), Time.month (ts r)) = (year, month)) /\
  (forall year month tz rows,
     files (_save_local_data "out/raw_dukascopy_data/EUR_USD" Sample.two_months
              (Sample.world_at 0 Sample.one_tick_cache)).1
       !! save_file_path "out/raw_dukascopy_data/EUR_USD" year month
       = Some (Csv tz rows) ->
     forall r, In r rows ->
       (Time.year (ts r), Time.month (ts r)) = (year, month)).
Proof.
  assert (H : forall year month tz rows,
     files (Sample.world_at 0 Sample.one_tick_cache)
       !! save_file_path "out/raw_dukascopy_data/EUR_USD" year month
       = Some (Csv tz rows) ->
     forall r, In r rows ->
       (Time.year (ts r), Time.month (ts r)) = (year, month)).
  { intros year month tz rows H r Hr.
    apply one_tick_cache_lookup in H as [-> ->].
    destruct Hr as [<-|[]]. vm_compute. reflexivity. }
  split; [exact H|].
  exact (save_local_data_keeps_months _ Sample.two_months _ H).
Defined.

Lemma save_local_data_keeps_ascending_witness :
  (ascending Sample.two_months /\
   forall year month tz rows,
     files (Sample.world_at 0 Sample.one_tick_cache)
       !! save_file_path "out/raw_dukascopy_data/EUR_USD" year month
       = Some (Csv tz rows) ->
     ascending rows) /\
  (forall year month tz rows,
     files (_save_local_data "out/raw_dukascopy_data/EUR_USD" Sample.two_months
              (Sample.world_at 0 Sample.one_tick_cache)).1
       !! save_file_path "out/raw_dukascopy_data/EUR_USD" year month
       = Some (Csv tz rows) ->
     ascending rows).
Proof.
  assert (H : forall year month tz rows,
     files (Sample.world_at 0 Sample.one_tick_cache)
       !! save_file_path "out/raw_dukascopy_data/EUR_USD" year month
       = Some (Csv tz rows) ->
     ascending rows).
  { intros year month tz rows H.
    apply one_tick_cache_lookup in H as [_ ->].
    repeat constructor. }
  split; [split; [apply ascending_two_months | exact H]|].
  exact (save_local_data_keeps_ascending _ _ _ ascending_two_months H).
Defined.

(** ** The loader on a cache that keeps the partition invariant *)

Lemma NoDup_map_inj_on {A B : Type} (f : A -> B) (l : list A)
    (Hinj : forall a b, In a l -> In b l -> f a = f b -> a = b)
    (Hnd : NoDup l) :
  NoDup (map f l).
Proof.
  induction Hnd as [|a l Hnot Hnd IH]; simpl; constructor.
  - rewrite list_elem_of_In, in_map_iff. intros (x & Hfx & Hx).
    apply Hnot, list_elem_of_In.
    rewrite (Hinj a x); [exact Hx | now left | now right | now symmetry].
  - apply IH. intros x y Hx Hy. apply Hinj; now right.
Qed.

(** No month is visited twice. *)
Lemma NoDup_month_starts (start_date end_date : Z) :
  NoDup (Time.month_starts start_date end_date).
Proof.
  unfold Time.month_starts. apply NoDup_map_inj_on.
  - intros x y _ _ [= Hq Hr].
    pose proof (Z.div_mod (Time.month_index start_date + Z.of_nat x) 12) as Hx.
    pose proof (Z.div_mod (Time.month_index start_date + Z.of_nat y) 12) as Hy.
    lia.
  - apply NoDup_ListNoDup, seq_NoDup.
Qed.

Lemma fold_load_month_NoDup (symbol_path : string) (w : World) :
  (forall year month tz rows,
     files w !! save_file_path symbol_path year month = Some (Csv tz rows) ->
     ascending rows /\ forall r, In r rows -> year_month r = (year, month)) ->
  forall (l seen : list (Z * Z)) (acc : list DataFrame * World),
    files acc.2 = files w ->
    NoDup l -> (forall dt, In dt l -> ~ In dt seen) ->
    NoDup (index (concat acc.1)) ->
    (forall r, In r (concat acc.1) -> In (year_month r) seen) ->
    NoDup (index (concat (fold_left (load_month symbol_path) l acc).1)).
Proof.
  intros Hinv. induction l as [|dt l IH]; intros seen acc Hfiles Hnd Hfresh
    Hacc Hseen; [exact Hacc|].
  simpl. inversion Hnd as [|dt' l' Hnot Hnd']; subst.
  rewrite list_elem_of_In in Hnot.
  apply (IH (dt :: seen)).
  - now rewrite files_load_month.
  - exact Hnd'.
  - intros dt' Hin [<-|Hs]; [contradiction|].
    apply (Hfresh dt'); [now right | exact Hs].
  - destruct acc as [dfs w0]. cbn [fst snd] in *. unfold load_month.
    rewrite Hfiles.
    destruct (files w !! load_file_path symbol_path dt.1 dt.2)
      as [[tz rows|]|] eqn:Hf; cbn [read_csv fst]; try exact Hacc.
    destruct (negb (empty rows)); cbn [fst]; [|exact Hacc].
    destruct (Hinv dt.1 dt.2 tz rows Hf) as [Hasc Hown].
    rewrite concat_snoc, index_app. apply NoDup_app.
    split; [exact Hacc|]. split; [|now apply ascending_NoDup].
    intros t. rewrite !list_elem_of_In. intros H1 H2.
    apply in_map_iff in H1 as (r1 & <- & Hr1).
    apply in_map_iff in H2 as (r2 & Hts & Hr2).
    apply Hseen in Hr1. apply Hown in Hr2.
    apply (Hfresh dt); [now left|].
    replace dt with (year_month r1); [exact Hr1|].
    destruct dt. cbn [fst snd] in Hr2. rewrite <- Hr2.
    unfold year_month. now rewrite Hts.
  - destruct acc as [dfs w0]. cbn [fst snd] in *. unfold load_month.
    rewrite Hfiles. intros r.
    destruct (files w !! load_file_path symbol_path dt.1 dt.2)
      as [[tz rows|]|] eqn:Hf; cbn [read_csv fst];
      try (intros Hr; right; now apply Hseen).
    destruct (negb (empty rows)); cbn [fst];
      [|intros Hr; right; now apply Hseen].
    rewrite concat_snoc, in_app_iff. intros [Hr|Hr];
      [right; now apply Hseen|].
    left. destruct (Hinv dt.1 dt.2 tz rows Hf) as [_ Hown].
    rewrite (Hown r Hr). now destruct dt.
Qed.

(** When every partition file of a symbol is strictly ascending and holds
    only rows of its own (year, month), what the loader returns is strictly
    ascending: no label twice, whatever the number of months read. *)
Theorem load_local_data_ascending (symbol_path : string)
    (start_date end_date : Z) (w : World) :
  (forall year month tz rows,
     files w !! save_file_path symbol_path year month = Some (Csv tz rows) ->
     ascending rows /\
     forall r, In r rows ->
       (Time.year (ts r), Time.month (ts r)) = (year, month)) ->
  ascending (_load_local_data symbol_path start_date end_date w).1.
Proof.
  intros Hinv. unfold _load_local_data.
  pose proof (fold_load_month_NoDup symbol_path w Hinv
                (Time.month_starts start_date end_date) [] ([], w) eq_refl
                (NoDup_month_starts start_date end_date)) as H.
  destruct (fold_left _ _ _) as [dfs w1]. cbn [fst] in H.
  destruct dfs as [|df dfs]; cbn [fst]; [constructor|].
  apply loc_ascending, sort_index_ascending, H.
  - intros dt _ [].
  - constructor.
  - intros r [].
Qed.

Lemma load_local_data_ascending_witness :
  (forall year month tz rows,
     files (Sample.world_at 0 Sample.one_tick_cache)
       !! save_file_path "out/raw_dukascopy_data/EUR_USD" year month
       = Some (Csv tz rows) ->
     ascending rows /\
     forall r, In r rows ->
       (Time.year (ts r), Time.month (ts r)) = (year, month)) /\
  ascending
    (_load_local_data "out/raw_dukascopy_data/EUR_USD"
       (Time.minus_months (Sample.day_2025_04_25 + 30 * Sample.hour) 1)
       (Sample.day_2025_04_25 + 30 * Sample.hour)
       (Sample.world_at 0 Sample.one_tick_cache)).1.
Proof.
  assert (H : forall year month tz rows,
     files (Sample.world_at 0 Sample.one_tick_cache)
       !! save_file_path "out/raw_dukascopy_data/EUR_USD" year month
       = Some (Csv tz rows) ->
     ascending rows /\
     forall r, In r rows ->
       (Time.year (ts r), Time.month (ts r)) = (year, month)).
  { intros year month tz rows H.
    apply one_tick_cache_lookup in H as [-> ->]. split.
    - repeat constructor.
    - intros r [<-|[]]. vm_compute. reflexivity. }
  split; [exact H|].
  exact (load_local_data_ascending _ _ _ _ H).
Defined.

(** ** What a run does to the world *)

Lemma grows_refl (w : World) : grows w w.
Proof.
  repeat split; try (exists []; now rewrite app_nil_r). auto.
Qed.

Lemma grows_trans (w1 w2 w3 : World) : grows w1 w2 -> grows w2 w3 -> grows w1 w3.
Proof.
  intros (Hu1 & Hl1 & [o1 Ho1] & [n1 Hn1] & Hf1)
         (Hu2 & Hl2 & [o2 Ho2] & [n2 Hn2] & Hf2).
  split; [congruence|]. split; [congruence|].
  split; [exists (o1 ++ o2); now rewrite Ho2, Ho1, app_assoc|].
  split; [exists (n1 ++ n2); now rewrite Hn2, Hn1, app_assoc|].
  auto.
Qed.

Lemma grows_print (m : Message) (w : World) : grows w (print m w).
Proof.
  repeat split; try (now exists [m]); try (exists []; now rewrite app_nil_r).
  auto.
Qed.

Lemma grows_sent (q : Request) (w : World) : grows w (sent q w).
Proof.
  repeat split; try (now exists [q]); try (exists []; now rewrite app_nil_r).
  auto.
Qed.

Lemma grows_write (p : string) (f : file) (w : World) : grows w (write p f w).
Proof.
  repeat split; try (exists []; now rewrite app_nil_r).
  intros p' Hp'. rewrite files_write.
  destruct (decide (p = p')) as [->|Hne].
  - rewrite lookup_insert_eq. eauto.
  - now rewrite lookup_insert_ne.
Qed.

Lemma grows_load (symbol_path : string) (start_date end_date : Z) (w : World) :
  grows w (_load_local_data symbol_path start_date end_date w).2.
Proof.
  pose proof (load_frame symbol_path start_date end_date w) as Hf.
  assert (Hout : exists out,
            stdout (_load_local_data symbol_path start_date end_date w).2
            = stdout w ++ out).
  { unfold _load_local_data.
    pose proof (fold_load_month_stdout symbol_path
                  (Time.month_starts start_date end_date) ([], w)) as H.
    destruct (fold_left _ _ _) as [dfs w1]. cbn [snd] in H.
    eexists. destruct dfs; exact H. }
  split; [now rewrite Hf|]. split; [now rewrite Hf|].
  split; [exact Hout|].
  split; [exists []; now rewrite Hf, app_nil_r|].
  intros p. now rewrite Hf.
Qed.

Lemma grows_save_groups (symbol_path : string)
    (groups : list ((Z * Z) * DataFrame)) (w : World) :
  grows w (save_groups symbol_path groups w).1.
Proof.
  revert w. induction groups as [|[[y m] g] rest IH]; intros w;
    [apply grows_refl|].
  rewrite save_groups_cons.
  destruct (save_group_cases symbol_path w y m g) as [[_ ->]|[_ ->]];
    [apply grows_refl|].
  eapply grows_trans; [apply grows_write | apply IH].
Qed.

Lemma grows_save_local_data (symbol_path : string) (df : DataFrame) (w : World) :
  grows w (_save_local_data symbol_path df w).1.
Proof.
  unfold _save_local_data.
  pose proof (grows_save_groups symbol_path (groupby_year_month df) w) as H.
  destruct (save_groups symbol_path (groupby_year_month df) w)
    as [w1 [[]|e]]; cbn [fst] in *; [|exact H].
  eapply grows_trans; [exact H | apply grows_print].
Qed.

Lemma grows_reconcile (local_df : DataFrame) (start_date : Z) (w : World) :
  grows w (reconcile local_df start_date w).2.
Proof.
  unfold reconcile. destruct (index_max local_df); apply grows_print.
Qed.

Lemma grows_fetch_new
    (fetch : string -> Interval -> OfferSide -> Z -> Z -> outcome DataFrame)
    (symbol_path dukascopy_symbol : string) (fetch_start_date end_date : Z)
    (dfs : list DataFrame) (w : World) :
  grows w (fetch_new fetch symbol_path dukascopy_symbol fetch_start_date
                     end_date dfs w).1.
Proof.
  unfold fetch_new, _fetch_from_dukascopy.
  destruct (fetch_start_date <? end_date); [|apply grows_print].
  assert (H0 : grows w
    (sent (mkRequest dukascopy_symbol INTERVAL_TICK OFFER_SIDE_BID
                     fetch_start_date end_date)
          (print (FetchingNewData fetch_start_date end_date) w)))
    by (eapply grows_trans; [apply grows_print | apply grows_sent]).
  destruct (fetch _ _ _ _ _) as [new_df|e]; cbn [fst];
    [|eapply grows_trans; [exact H0 | apply grows_print]].
  destruct (negb (empty new_df)); [|exact H0].
  match goal with |- context [_save_local_data ?sp ?df ?w0] =>
    pose proof (grows_save_local_data sp df w0) as Hs;
    destruct (_save_local_data sp df w0) as [w3 [[]|e]]
  end; cbn [fst] in *.
  - eapply grows_trans; [exact H0 | exact Hs].
  - eapply grows_trans; [exact H0|].
    eapply grows_trans; [exact Hs | apply grows_print].
Qed.

Lemma grows_export (output_dir dukascopy_symbol target_symbol tz : string)
    (raw_df : DataFrame) (w : World) :
  grows w (export output_dir dukascopy_symbol target_symbol tz raw_df w).
Proof.
  unfold export. destruct (empty raw_df); [apply grows_print|].
  repeat (eapply grows_trans; [|apply grows_print]). apply grows_write.
Qed.

Lemma grows_process_symbol
    (fetch : string -> Interval -> OfferSide -> Z -> Z -> outcome DataFrame)
    (output_dir tz : string) (start_date end_date : Z) (w : World)
    (symbol : string * string) :
  grows w (process_symbol fetch output_dir tz start_date end_date w symbol).
Proof.
  destruct symbol as [dukascopy_symbol target_symbol]. unfold process_symbol.
  set (wa := print (ProcessingSymbol dukascopy_symbol target_symbol)
                   (print Separator w)).
  assert (Ha : grows w wa)
    by (eapply grows_trans; apply grows_print).
  pose proof (grows_load (symbol_path_of output_dir dukascopy_symbol)
                start_date end_date wa) as Hload.
  destruct (_load_local_data _ _ _ wa) as [local_df wb]. cbn [snd] in Hload.
  pose proof (grows_reconcile local_df start_date wb) as Hrec.
  destruct (reconcile local_df start_date wb) as [[fetch_start_date dfs] wc].
  cbn [snd] in Hrec.
  pose proof (grows_fetch_new fetch (symbol_path_of output_dir dukascopy_symbol)
                dukascopy_symbol fetch_start_date end_date dfs wc) as Hfetch.
  destruct (fetch_new _ _ _ _ _ _ _) as [wd [dfs'|]]; cbn [fst] in Hfetch.
  - assert (Hd : grows w wd)
      by (eapply grows_trans; [exact Ha|]; eapply grows_trans; [exact Hload|];
          eapply grows_trans; [exact Hrec | exact Hfetch]).
    destruct dfs'; (eapply grows_trans; [exact Hd|]);
      [apply grows_print | apply grows_export].
  - eapply grows_trans; [exact Ha|]. eapply grows_trans; [exact Hload|].
    eapply grows_trans; [exact Hrec | exact Hfetch].
Qed.

Lemma grows_run
    (fetch : string -> Interval -> OfferSide -> Z -> Z -> outcome DataFrame)
    (output_dir tz : string) (start_date end_date : Z)
    (symbols : list (string * string)) (w : World) :
  grows w (fold_left (process_symbol fetch output_dir tz start_date end_date)
                     symbols w).
Proof.
  revert w. induction symbols as [|symbol rest IH]; intros w;
    [apply grows_refl|].
  simpl. eapply grows_trans; [apply grows_process_symbol | apply IH].
Qed.

(** A run only adds: whatever the symbols, the remote and the timezone, it
    returns the instance it was given, deletes no file, appends to the
    output and to the requests without rewriting them, and leaves the
    clocks alone. *)
Theorem get_only_adds
    (fetch : string -> Interval -> OfferSide -> Z -> Z -> outcome DataFrame)
    (known_timezone : string -> bool) (self : Dukascopy_Tick_Data_Fetcher)
    (months_to_fetch : Z) (symbols : list (string * string))
    (output_dir : string) (broker_timezone_arg : option string) (w : World) :
  let run := get fetch known_timezone self months_to_fetch symbols output_dir
                 broker_timezone_arg w in
  run.1.1 = self /\
  utc_now run.1.2 = utc_now w /\ local_now run.1.2 = local_now w /\
  (exists out, stdout run.1.2 = stdout w ++ out) /\
  (exists new, requests run.1.2 = requests w ++ new) /\
  (forall p, is_Some (files w !! p) -> is_Some (files run.1.2 !! p)).
Proof.
  intros run.
  assert (Hself : run.1.1 = self).
  { unfold run, get. now destruct (known_timezone _). }
  split; [exact Hself|].
  change (grows w run.1.2). unfold run, get.
  destruct (known_timezone _); cbn [fst snd]; [|apply grows_refl].
  eapply grows_trans; [|apply grows_run].
  eapply grows_trans; apply grows_print.
Qed.

Lemma requests_run
    (fetch : string -> Interval -> OfferSide -> Z -> Z -> outcome DataFrame)
    (output_dir tz : string) (start_date end_date : Z)
    (symbols : list (string * string)) (w : World) :
  exists new,
    requests (fold_left (process_symbol fetch output_dir tz start_date end_date)
                        symbols w) = requests w ++ new /\
    (length new <= length symbols)%nat /\
    Forall (fun q => In (req_symbol q) (map fst symbols) /\
                     req_interval q = INTERVAL_TICK /\
                     req_side q = OFFER_SIDE_BID /\
                     req_end q = end_date /\ req_start q < end_date) new.
Proof.
  revert w. induction symbols as [|[dukascopy_symbol target_symbol] rest IH];
    intros w.
  - exists []. split; [now rewrite app_nil_r|]. split; [reflexivity|constructor].
  - cbn [fold_left].
    destruct (IH (process_symbol fetch output_dir tz start_date end_date w
                    (dukascopy_symbol, target_symbol)))
      as (new & Hreq & Hlen & Hall).
    pose proof (requests_process_symbol fetch output_dir tz start_date end_date
                  w dukascopy_symbol target_symbol) as Hone.
    cbv zeta in Hone.
    match type of Hone with context [if ?c then [?q] else []] =>
      set (cond := c) in *; set (request := q) in * end.
    exists ((if cond then [request] else []) ++ new).
    split; [rewrite Hreq, Hone; now rewrite app_assoc|]. split.
    + rewrite length_app. destruct cond; simpl; lia.
    + apply Forall_app. split.
      * destruct cond eqn:Hc; [|constructor].
        constructor; [|constructor]. unfold request. cbn.
        repeat split; [now left|]. now apply Z.ltb_lt.
      * eapply List.Forall_impl; [|exact Hall].
        intros q (H1 & H2). split; [now right | exact H2].
Qed.

(** A run asks the remote at most once per symbol of the list. Every
    request is for a symbol of the list, for ticks on the bid side, and for
    a window that is not empty and ends at the instant the run started. *)
Theorem get_requests
    (fetch : string -> Interval -> OfferSide -> Z -> Z -> outcome DataFrame)
    (known_timezone : string -> bool) (self : Dukascopy_Tick_Data_Fetcher)
    (months_to_fetch : Z) (symbols : list (string * string))
    (output_dir : string) (broker_timezone_arg : option string) (w : World) :
  exists new,
    requests (get fetch known_timezone self months_to_fetch symbols output_dir
                  broker_timezone_arg w).1.2 = requests w ++ new /\
    (length new <= length symbols)%nat /\
    Forall (fun q => In (req_symbol q) (map fst symbols) /\
                     req_interval q = INTERVAL_TICK /\
                     req_side q = OFFER_SIDE_BID /\
                     req_end q = utc_now w /\ req_start q < req_end q) new.
Proof.
  unfold get. destruct (known_timezone _); cbn [fst snd].
  - match goal with |- context [fold_left (process_symbol _ ?od ?tz ?s ?e) _ ?w0] =>
      destruct (requests_run fetch od tz s e symbols w0)
        as (new & Hreq & Hlen & Hall)
    end.
    exists new. split; [exact Hreq|]. split; [exact Hlen|].
    eapply List.Forall_impl; [|exact Hall].
    intros q (H1 & H2 & H3 & H4 & H5). rewrite H4.
    repeat split; assumption.
  - exists []. split; [now rewrite app_nil_r|].
    split; [simpl; lia | constructor].
Qed.

(** ** What a run writes *)

Lemma merge_partition_nonempty (e g : DataFrame) :
  g <> [] -> merge_partition e g <> [].
Proof.
  destruct g as [|x g]; [congruence|]. intros _ Hnil.
  destruct (last_at (ts x) (x :: g)) as [y|] eqn:Hl.
  - assert (Hin : In y (merge_partition e (x :: g)))
      by (apply In_merge_partition; left;
          now replace (ts y) with (ts x)
            by (now apply last_at_Some in Hl as [_ ->])).
    rewrite Hnil in Hin. contradiction.
  - apply last_at_None in Hl. apply Hl. now left.
Qed.

(** A file after one symbol was there before, or is a cache table in UTC
    that is not empty, or is an export in the timezone of the run that is
    not empty, strictly ascending and within the desired window. *)
Lemma process_symbol_written
    (fetch : string -> Interval -> OfferSide -> Z -> Z -> outcome DataFrame)
    (output_dir tz : string) (start_date end_date : Z) (w : World)
    (symbol : string * string) (p : string) (f : file) :
  files (process_symbol fetch output_dir tz start_date end_date w symbol) !! p
    = Some f ->
  files w !! p = Some f \/
  (exists rows, f = Csv UTC rows /\ rows <> []) \/
  (exists rows, f = Csv tz rows /\ rows <> [] /\ ascending rows /\
                forall r, In r rows -> start_date <= ts r <= end_date).
Proof.
  destruct symbol as [dukascopy_symbol target_symbol].
  unfold process_symbol.
  set (wa := print (ProcessingSymbol dukascopy_symbol target_symbol)
                   (print Separator w)).
  pose proof (load_frame (symbol_path_of output_dir dukascopy_symbol)
                start_date end_date wa) as Hload.
  destruct (_load_local_data _ _ _ wa) as [local_df wb]. cbn [snd] in Hload.
  pose proof (reconcile_frame local_df start_date wb) as Hrec.
  destruct (reconcile local_df start_date wb) as [[fetch_start_date dfs] wc].
  cbn [snd] in Hrec.
  assert (Hwc : files wc = files w) by now rewrite Hrec, Hload.
  clear Hrec Hload.
  assert (Hfetch :
    forall f', files (fetch_new fetch (symbol_path_of output_dir dukascopy_symbol)
                        dukascopy_symbol fetch_start_date end_date dfs wc).1
                 !! p = Some f' ->
          files w !! p = Some f' \/
          exists rows, f' = Csv UTC rows /\ rows <> []).
  { intros f'. unfold fetch_new, _fetch_from_dukascopy.
    destruct (fetch_start_date <? end_date);
      [|cbn; rewrite Hwc; now left].
    destruct (fetch _ _ _ _ _) as [new_df|e];
      [|cbn; rewrite Hwc; now left].
    destruct (negb (empty new_df)); [|cbn; rewrite Hwc; now left].
    match goal with |- context [_save_local_data ?sp ?df ?w0] =>
      assert (Hs : files (_save_local_data sp df w0).1 !! p = Some f' ->
                   files w !! p = Some f' \/
                   exists rows, f' = Csv UTC rows /\ rows <> []);
      [|destruct (_save_local_data sp df w0) as [w3 [[]|e]]; exact Hs]
    end.
    rewrite files_save_local_data. revert p f'.
    refine (save_groups_files_inv _ _
              (fun p f' => files w !! p = Some f' \/
                           exists rows, f' = Csv UTC rows /\ rows <> [])
              _ _ _ _).
    - intros y m g tz0 e Hin _. right. eexists. split; [reflexivity|].
      apply merge_partition_nonempty. now apply In_groupby in Hin as [_ H].
    - intros y m g Hin. right. eexists. split; [reflexivity|].
      now apply In_groupby in Hin as [_ H].
    - intros p f' H. left. cbn in H. now rewrite Hwc in H. }
  assert (Hweak : forall wd,
    (forall f', files wd !! p = Some f' ->
       files w !! p = Some f' \/ exists rows, f' = Csv UTC rows /\ rows <> []) ->
    files wd !! p = Some f ->
    files w !! p = Some f \/
    (exists rows, f = Csv UTC rows /\ rows <> []) \/
    (exists rows, f = Csv tz rows /\ rows <> [] /\ ascending rows /\
                  forall r, In r rows -> start_date <= ts r <= end_date)).
  { intros wd Hd H. apply Hd in H as [H|H]; [now left | right; now left]. }
  destruct (fetch_new _ _ _ _ _ _ _) as [wd [dfs'|]]; cbn [fst] in Hfetch.
  - destruct dfs' as [|d l].
    + cbn [files print with_stdout]. now apply Hweak.
    + rewrite files_export.
      destruct (final_dataset (d :: l) start_date end_date) as [|x rows] eqn:Hfd;
        cbn [empty]; [now apply Hweak|].
      intros H. apply lookup_insert_Some in H as [[_ <-]|[_ H]];
        [|now apply (Hweak wd)].
      right. right. exists (x :: rows).
      split; [reflexivity|]. split; [discriminate|].
      rewrite <- Hfd. split; [apply final_dataset_ascending|].
      intros r Hr. now apply final_dataset_first in Hr as [_ Hr].
  - now apply Hweak.
Qed.

(** Every file a run leaves behind was there before the run, or is a cache
    table that is not empty, or is an export in the timezone of the run:
    not empty, strictly ascending by timestamp, with every timestamp
    between the start and the end of the desired window. A run never writes
    an empty table and never writes an unparsable file. *)
Theorem get_written_files
    (fetch : string -> Interval -> OfferSide -> Z -> Z -> outcome DataFrame)
    (known_timezone : string -> bool) (self : Dukascopy_Tick_Data_Fetcher)
    (months_to_fetch : Z) (symbols : list (string * string))
    (output_dir : string) (broker_timezone_arg : option string) (w : World)
    (p : string) (f : file) :
  let target_tz_str :=
    match broker_timezone_arg with
    | Some tz => tz
    | None => broker_timezone self
    end in
  files (get fetch known_timezone self months_to_fetch symbols output_dir
             broker_timezone_arg w).1.2 !! p = Some f ->
  files w !! p = Some f \/
  (exists rows, f = Csv UTC rows /\ rows <> []) \/
  (exists rows, f = Csv target_tz_str rows /\ rows <> [] /\ ascending rows /\
     forall r, In r rows ->
       Time.minus_months (utc_now w) months_to_fetch <= ts r <= utc_now w).
Proof.
  intros target_tz_str. unfold get. fold target_tz_str.
  destruct (known_timezone target_tz_str); cbn [fst snd]; [|now left].
  change (utc_now (print (UsingBrokerTimezone target_tz_str) w))
    with (utc_now w).
  set (start_date := Time.minus_months (utc_now w) months_to_fetch).
  match goal with |- files (fold_left _ _ ?w0) !! p = Some f -> _ =>
    change (files w) with (files w0); generalize w0
  end.
  induction symbols as [|symbol rest IH]; intros w0; [now left|].
  simpl. intros H. apply IH in H as [H|H]; [|now right].
  now apply process_symbol_written in H.
Qed.

Lemma get_written_files_witness :
  let end_date := Sample.day_2025_04_25 + 30 * Sample.hour in
  let w0 := Sample.world_at end_date ∅ in
  let f := Csv "Europe/Helsinki"
               [(end_date - Sample.hour, Sample.tick_a);
                (end_date, Sample.tick_b)] in
  files (get Sample.boundary_remote Sample.known __init__ 1
             [("EUR/USD", "EURUSD")] "out" None w0).1.2
    !! Sample.eur_export = Some f /\
  (files w0 !! Sample.eur_export = Some f \/
   (exists rows, f = Csv UTC rows /\ rows <> []) \/
   (exists rows, f = Csv "Europe/Helsinki" rows /\ rows <> [] /\
      ascending rows /\
      forall r, In r rows ->
        Time.minus_months (utc_now w0) 1 <= ts r <= utc_now w0)).
Proof.
  intros end_date w0 f.
  assert (H : files (get Sample.boundary_remote Sample.known __init__ 1
                         [("EUR/USD", "EURUSD")] "out" None w0).1.2
                !! Sample.eur_export = Some f)
    by (vm_compute; reflexivity).
  split; [exact H|].
  exact (get_written_files Sample.boundary_remote Sample.known __init__ 1
           [("EUR/USD", "EURUSD")] "out" None w0 Sample.eur_export f H).
Defined.

(** ** The stored default timezone *)



(** ** The export path *)

Lemma startswith_sep_append (a b : string) :
  a <> EmptyString ->
  Path.startswith_sep (a +:+ b) = Path.startswith_sep a.
Proof. destruct a; [congruence | reflexivity]. Qed.

(** For an output directory that is not empty and does not end in a slash
    and a target symbol that does not start with a slash, the export file is
    [<output_dir>/processed_data/<target_symbol>-<timezone, slashes as underscores>-<today>.csv];
    a target symbol that starts with a slash makes [os.path.join] drop the
    output directory, and the file is written at the file name itself. *)
Theorem export_path_layout (output_dir target_symbol target_tz_str : string)
    (w : World) :
  let output_filename :=
    target_symbol +:+ "-" +:+ Path.replace_slash target_tz_str +:+ "-"
      +:+ today_str w +:+ ".csv" in
  (output_dir <> EmptyString -> Path.endswith_sep output_dir = false ->
   Path.startswith_sep target_symbol = false ->
   output_path_of output_dir target_symbol target_tz_str w =
     output_dir +:+ "/processed_data/" +:+ output_filename) /\
  (Path.startswith_sep target_symbol = true ->
   output_path_of output_dir target_symbol target_tz_str w = output_filename).
Proof.
  intros output_filename. unfold output_path_of. fold output_filename.
  split.
  - intros Hne Hend Hsym.
    assert (Hfile : Path.startswith_sep output_filename = false).
    { unfold output_filename. destruct target_symbol as [|c s];
        [reflexivity | exact Hsym]. }
    rewrite (join_relative _ output_filename Hfile).
    rewrite (join_relative output_dir "processed_data") by reflexivity.
    assert (Hdir : Path.as_dir output_dir = output_dir +:+ "/").
    { unfold Path.as_dir. rewrite Hend.
      destruct output_dir; [contradiction | reflexivity]. }
    unfold Path.as_dir at 1.
    rewrite endswith_sep_append by (discriminate || reflexivity).
    replace (Path.is_empty (Path.as_dir output_dir +:+ "processed_data"))
      with false by (destruct (Path.as_dir output_dir); reflexivity).
    cbn [orb]. rewrite Hdir, !append_assoc. reflexivity.
  - intros Hsym. unfold Path.join.
    replace (Path.startswith_sep output_filename) with true; [reflexivity|].
    unfold output_filename. destruct target_symbol as [|c s];
      [discriminate | now rewrite <- Hsym].
Qed.

Lemma export_path_layout_witness :
  ("out" <> EmptyString /\ Path.endswith_sep "out" = false /\
   Path.startswith_sep "EURUSD" = false) /\
  output_path_of "out" "EURUSD" "Europe/Helsinki"
    (Sample.world_at (Sample.day_2025_04_25 + 30 * Sample.hour) ∅)
  = "out/processed_data/EURUSD-Europe_Helsinki-2025-04-26.csv".
Proof.
  assert (H1 : "out" <> EmptyString) by discriminate.
  assert (H2 : Path.endswith_sep "out" = false) by reflexivity.
  assert (H3 : Path.startswith_sep "EURUSD" = false) by reflexivity.
  split; [tauto|].
  rewrite (proj1 (export_path_layout "out" "EURUSD" "Europe/Helsinki"
                    (Sample.world_at (Sample.day_2025_04_25 + 30 * Sample.hour)
                                     ∅)) H1 H2 H3).
  reflexivity.
Defined.

(** ** A symbol without usable cache, and a persist that fails *)



Lemma garbage_among_groups (symbol_path : string)
    (groups : list ((Z * Z) * DataFrame)) (fs : gmap string file) :
  (exists k g, In (k, g) groups /\
     fs !! save_file_path symbol_path k.1 k.2 = Some Garbage) \/
  (forall k g, In (k, g) groups ->
     fs !! save_file_path symbol_path k.1 k.2 <> Some Garbage).
Proof.
  induction groups as [|[k g] rest IH]; [right; intros k g []|].
  destruct IH as [(k' & g' & Hin & Hg)|Hnone].
  - left. exists k', g'. split; [now right | exact Hg].
  - destruct (fs !! save_file_path symbol_path k.1 k.2) as [[tz rows|]|] eqn:Hf.
    + right. intros k' g' [[= <- <-]|Hin]; [congruence | now apply (Hnone k' g')].
    + left. exists k, g. split; [now left | exact Hf].
    + right. intros k' g' [[= <- <-]|Hin]; [congruence | now apply (Hnone k' g')].
Qed.

(** When the remote answers with rows and the persist raises, on a
    partition file that does not parse, the symbol ends there: the error is
    printed as a fetch error, nothing is exported, and the files are the
    ones the persist left. *)
Theorem process_symbol_persist_raises
    (fetch : string -> Interval -> OfferSide -> Z -> Z -> outcome DataFrame)
    (output_dir target_tz_str : string) (start_date end_date : Z) (w : World)
    (dukascopy_symbol target_symbol : string) (new_df : DataFrame)
    (e : string) :
  let symbol_path := symbol_path_of output_dir dukascopy_symbol in
  let wa := print (ProcessingSymbol dukascopy_symbol target_symbol)
                  (print Separator w) in
  let loaded := _load_local_data symbol_path start_date end_date wa in
  let kept := reconcile loaded.1 start_date loaded.2 in
  let request := mkRequest dukascopy_symbol INTERVAL_TICK OFFER_SIDE_BID
                           kept.1.1 end_date in
  let saved :=
    _save_local_data symbol_path new_df
      (sent request (print (FetchingNewData kept.1.1 end_date) kept.2)) in
  kept.1.1 < end_date ->
  fetch dukascopy_symbol INTERVAL_TICK OFFER_SIDE_BID kept.1.1 end_date
    = Ok new_df ->
  new_df <> [] ->
  saved.2 = Raise e ->
  process_symbol fetch output_dir target_tz_str start_date end_date w
                 (dukascopy_symbol, target_symbol)
  = print (ErrorFetching dukascopy_symbol e) saved.1 /\
  e = "ParserError" /\
  exists year month,
    group (year, month) new_df <> [] /\
    files w !! save_file_path symbol_path year month = Some Garbage.
Proof.
  intros symbol_path wa loaded kept request saved Hopen Hfetch Hne Hraise.
  split; [|split].
  - unfold process_symbol. fold wa. fold symbol_path. fold loaded.
    unfold saved, request in Hraise |- *. clear saved request.
    destruct loaded as [local_df wb]. cbn [fst snd] in *. fold kept.
    destruct kept as [[fetch_start_date dfs] wc]. cbn [fst snd] in *.
    unfold fetch_new, _fetch_from_dukascopy.
    apply Z.ltb_lt in Hopen. rewrite Hopen, Hfetch.
    destruct new_df as [|x new_df]; [congruence|]. cbn [empty negb].
    destruct (_save_local_data _ _ _) as [w3 o]. cbn [snd] in Hraise.
    subst o. reflexivity.
  - unfold saved, _save_local_data in Hraise.
    match type of Hraise with context [save_groups ?sp ?gs ?w0] =>
      pose proof (save_groups_outcome sp gs w0) as Hout;
      destruct (save_groups sp gs w0) as [w3 [[]|e']]
    end; cbn [snd] in *; [discriminate|].
    destruct Hout as [Hout|Hout]; [discriminate|]. congruence.
  - assert (Hfiles : files (sent request
                              (print (FetchingNewData kept.1.1 end_date) kept.2))
                     = files w).
    { cbn [files sent print with_stdout]. unfold kept.
      rewrite reconcile_frame. cbn [files with_stdout].
      unfold loaded. now rewrite load_frame. }
    destruct (garbage_among_groups symbol_path (groupby_year_month new_df)
                (files w)) as [([y m] & g & Hin & Hg)|Hnone].
    + exists y, m. apply In_groupby in Hin as [-> Hg']. now split.
    + exfalso.
      destruct (save_groups_ok symbol_path (groupby_year_month new_df)
                  (sent request
                        (print (FetchingNewData kept.1.1 end_date) kept.2)))
        as (w3 & Hrun & _).
      * rewrite groupby_keys. apply NoDup_group_keys.
      * intros k g Hin. rewrite Hfiles. now apply (Hnone k g).
      * unfold saved, _save_local_data in Hraise. rewrite Hrun in Hraise.
        discriminate.
Qed.

Lemma process_symbol_persist_raises_witness :
  let end_date := Sample.day_2025_04_25 + 30 * Sample.hour in
  let start_date := Time.minus_months end_date 1 in
  let w := Sample.world_at end_date Sample.unparsable_cache in
  let w1 := process_symbol Sample.repeating_remote "out" "Europe/Helsinki"
                           start_date end_date w ("EUR/USD", "EURUSD") in
  last (stdout w1) = Some (ErrorFetching "EUR/USD" "ParserError") /\
  files w1 = files w.
Proof.
  intros end_date start_date w w1.
  pose proof (process_symbol_persist_raises Sample.repeating_remote "out"
                "Europe/Helsinki" start_date end_date w "EUR/USD" "EURUSD"
                [(Sample.day_2025_04_25 + Sample.hour, Sample.tick_a);
                 (Sample.day_2025_04_25 + Sample.hour, Sample.tick_b)]
                "ParserError") as H.
  cbv zeta in H.
  destruct H as (Hrun & _ & _);
    [vm_compute; reflexivity | reflexivity | discriminate
     | vm_compute; reflexivity |].
  unfold w1. rewrite Hrun. split; vm_compute; reflexivity.
Defined.

(** ** The grouping by month *)

Lemma filter_either {A : Type} (p q : A -> bool) (l : list A) :
  (forall x, p x = true -> q x = true -> False) ->
  Permutation (List.filter (fun x => p x || q x) l)
              (List.filter p l ++ List.filter q l).
Proof.
  intros Hpq. induction l as [|x l IH]; simpl; [constructor|].
  destruct (p x) eqn:Hp, (q x) eqn:Hq; simpl.
  - exfalso. now apply (Hpq x).
  - now constructor.
  - now apply Permutation_cons_app.
  - exact IH.
Qed.

Lemma groups_of_keys (df : DataFrame) (ks : list (Z * Z)) :
  NoDup ks ->
  Permutation (List.concat (map (fun k => group k df) ks))
              (List.filter (fun r => existsb (key_eqb (year_month r)) ks) df).
Proof.
  induction 1 as [|k ks Hnot Hnd IH]; simpl.
  - induction df as [|r df IHdf]; simpl; [constructor | exact IHdf].
  - rewrite filter_either.
    + apply Permutation_app; [reflexivity | exact IH].
    + intros r Hk Hks. apply key_eqb_eq in Hk.
      apply existsb_exists in Hks as (k' & Hin & Hk').
      apply key_eqb_eq in Hk'. apply Hnot, list_elem_of_In. congruence.
Qed.

Lemma key_leb_total (a b : Z * Z) : key_leb a b = false -> key_leb b a = true.
Proof.
  destruct a as [a1 a2], b as [b1 b2]. unfold key_leb. cbn [fst snd].
  destruct (Z.ltb_spec a1 b1), (Z.ltb_spec b1 a1), (Z.eqb_spec a1 b1),
    (Z.eqb_spec b1 a1), (Z.leb_spec a2 b2), (Z.leb_spec b2 a2);
    cbn; intros; try reflexivity; try discriminate; lia.
Qed.

Lemma key_leb_trans (a b c : Z * Z) :
  key_leb a b = true -> key_leb b c = true -> key_leb a c = true.
Proof.
  destruct a as [a1 a2], b as [b1 b2], c as [c1 c2]. unfold key_leb.
  cbn [fst snd].
  destruct (Z.ltb_spec a1 b1), (Z.ltb_spec b1 c1), (Z.ltb_spec a1 c1),
    (Z.eqb_spec a1 b1), (Z.eqb_spec b1 c1), (Z.eqb_spec a1 c1),
    (Z.leb_spec a2 b2), (Z.leb_spec b2 c2), (Z.leb_spec a2 c2);
    cbn; intros; try reflexivity; try discriminate; lia.
Qed.

Lemma sort_keys_sorted (l : list (Z * Z)) :
  StronglySorted (fun a b => key_leb a b = true) (sort_by key_leb l).
Proof.
  induction l as [|x l IH]; simpl; [constructor|].
  induction IH as [|y s Hs IHs Hy]; simpl; [repeat constructor|].
  destruct (key_leb x y) eqn:Hxy.
  - constructor; [now constructor|].
    constructor; [exact Hxy|].
    eapply List.Forall_impl; [|exact Hy].
    intros z Hz. now apply (key_leb_trans x y z).
  - constructor; [exact IHs|].
    eapply Permutation_Forall; [symmetry; apply insert_by_perm|].
    constructor; [now apply key_leb_total | exact Hy].
Qed.

(** The groups of the persist split the frame by month and lose nothing:
    there is one group per (year, month) that occurs, in ascending order of
    (year, month); no group is empty; each holds the rows of its month, in
    the order of the frame; and the groups together are a rearrangement of
    the frame. *)
Theorem groupby_year_month_splits (df : DataFrame) :
  NoDup (map fst (groupby_year_month df)) /\
  StronglySorted (fun a b => key_leb a b = true)
                 (map fst (groupby_year_month df)) /\
  (forall k g, In (k, g) (groupby_year_month df) <->
     g <> [] /\
     g = List.filter (fun r => key_eqb (Time.year (ts r), Time.month (ts r)) k)
                     df) /\
  Permutation (List.concat (map snd (groupby_year_month df))) df.
Proof.
  split; [rewrite groupby_keys; apply NoDup_group_keys|].
  split; [rewrite groupby_keys; apply sort_keys_sorted|].
  split.
  - intros k g. rewrite In_groupby. unfold group, year_month. tauto.
  - unfold groupby_year_month. rewrite map_map. cbn [snd].
    rewrite groups_of_keys by apply NoDup_group_keys.
    rewrite forallb_filter_id; [reflexivity|].
    apply forallb_forall. intros r Hr. apply existsb_exists.
    exists (year_month r). split; [|now apply key_eqb_eq].
    apply In_group_keys. now exists r.
Qed.

(** ** Facts about the calendar *)

Module CalendarFacts.
Import Time.

Lemma year_of_era_step (doe : Z) :
  0 <= doe < 146096 -> year_of_era doe <= year_of_era (doe + 1).
Proof.
  intros H. unfold year_of_era.
  assert (Hf : doe - doe / 1460 + doe / 36524 - doe / 146096 <=
               (doe + 1) - (doe + 1) / 1460 + (doe + 1) / 36524
                 - (doe + 1) / 146096)
    by (Z.div_mod_to_equations; lia).
  now apply Z.div_le_mono.
Qed.

Lemma day_of_year_range (doe : Z) :
  0 <= doe <= 146096 ->
  0 <= year_of_era doe <= 399 /\ 0 <= day_of_year doe <= 365.
Proof.
  intros H. unfold day_of_year, year_of_era. Z.div_mod_to_equations. lia.
Qed.

Lemma month_from_march_range (doe : Z) :
  0 <= doe <= 146096 -> 0 <= month_from_march doe <= 11.
Proof.
  intros H. pose proof (day_of_year_range doe H) as [_ Hd].
  unfold month_from_march. Z.div_mod_to_equations. lia.
Qed.

Lemma month_of_era_range (doe : Z) :
  0 <= doe <= 146096 -> 0 <= month_of_era doe <= 4799.
Proof.
  intros H. pose proof (day_of_year_range doe H) as [Hy _].
  pose proof (month_from_march_range doe H). unfold month_of_era. lia.
Qed.

Lemma month_of_era_step (doe : Z) :
  0 <= doe < 146096 -> month_of_era doe <= month_of_era (doe + 1).
Proof.
  intros H. unfold month_of_era.
  pose proof (year_of_era_step doe H) as Hy.
  pose proof (month_from_march_range doe ltac:(lia)) as Hm.
  pose proof (month_from_march_range (doe + 1) ltac:(lia)) as Hm'.
  destruct (Z.eq_dec (year_of_era (doe + 1)) (year_of_era doe)) as [Heq|Hne];
    [|lia].
  rewrite Heq. unfold month_from_march, day_of_year. rewrite Heq.
  Z.div_mod_to_equations. lia.
Qed.

Lemma month_of_era_mono (a b : Z) :
  0 <= a -> a <= b -> b <= 146096 -> month_of_era a <= month_of_era b.
Proof.
  intros Ha Hab Hb.
  replace b with (a + Z.of_nat (Z.to_nat (b - a))) in * by lia.
  induction (Z.to_nat (b - a)) as [|n IH].
  - rewrite Z.add_0_r. lia.
  - etransitivity; [apply IH; lia|].
    replace (a + Z.of_nat (S n)) with (a + Z.of_nat n + 1) by lia.
    apply month_of_era_step. lia.
Qed.

(** The day of the era of a day number, and the month index it gives. *)
Lemma civil_from_days_month_index (z0 : Z) :
  let era := (z0 + 719468) / 146097 in
  let doe := z0 + 719468 - era * 146097 in
  0 <= doe <= 146096 /\
  (civil_from_days z0).1.1 * 12 + ((civil_from_days z0).1.2 - 1) =
    era * 4800 + month_of_era doe + 2 /\
  1 <= (civil_from_days z0).1.2 <= 12.
Proof.
  intros era doe.
  assert (Hdoe : 0 <= doe <= 146096)
    by (unfold doe, era; Z.div_mod_to_equations; lia).
  split; [exact Hdoe|].
  pose proof (month_from_march_range doe Hdoe) as Hm.
  unfold civil_from_days. fold era. fold doe.
  change ((doe - doe / 1460 + doe / 36524 - doe / 146096) / 365)
    with (year_of_era doe).
  change (doe - (365 * year_of_era doe + year_of_era doe / 4
                 - year_of_era doe / 100)) with (day_of_year doe).
  change ((5 * day_of_year doe + 2) / 153) with (month_from_march doe).
  cbn [fst snd]. unfold month_of_era.
  destruct (Z.ltb_spec (month_from_march doe) 10) as [H10|H10].
  - destruct (Z.leb_spec (month_from_march doe + 3) 2); lia.
  - destruct (Z.leb_spec (month_from_march doe - 9) 2); lia.
Qed.

Lemma month_range (t : Timestamp) : 1 <= month t <= 12.
Proof. apply (civil_from_days_month_index (day_number t)). Qed.

Lemma day_number_mono (t1 t2 : Timestamp) :
  t1 <= t2 -> day_number t1 <= day_number t2.
Proof. intros H. unfold day_number. now apply Z.div_le_mono. Qed.

(** Later instants lie in later or equal months. *)
Lemma month_index_mono (t1 t2 : Timestamp) :
  t1 <= t2 -> month_index t1 <= month_index t2.
Proof.
  intros H. apply day_number_mono in H. unfold month_index, year, month.
  destruct (civil_from_days_month_index (day_number t1)) as (Hd1 & -> & _).
  destruct (civil_from_days_month_index (day_number t2)) as (Hd2 & -> & _).
  set (z1 := day_number t1 + 719468) in *.
  set (z2 := day_number t2 + 719468) in *.
  assert (Hz : z1 <= z2) by (unfold z1, z2; lia).
  assert (He : z1 / 146097 <= z2 / 146097) by now apply Z.div_le_mono.
  destruct (Z.eq_dec (z1 / 146097) (z2 / 146097)) as [Heq|Hne].
  - rewrite Heq in *.
    pose proof (month_of_era_mono (z1 - z2 / 146097 * 146097)
                  (z2 - z2 / 146097 * 146097)). lia.
  - pose proof (month_of_era_range _ Hd1). pose proof (month_of_era_range _ Hd2).
    lia.
Qed.

Lemma year_month_of_index (t : Timestamp) :
  (year t, month t) = (month_index t / 12, month_index t mod 12 + 1).
Proof.
  pose proof (month_range t) as Hm. unfold month_index.
  f_equal; Z.div_mod_to_equations; lia.
Qed.

(** Every instant of the window falls in one of the months that
    [month_starts] lists. *)
Lemma month_starts_cover (start_date end_date t : Timestamp) :
  start_date <= t <= end_date ->
  In (year t, month t) (month_starts start_date end_date).
Proof.
  intros [Hs He]. apply month_index_mono in Hs, He.
  rewrite year_month_of_index. unfold month_starts.
  apply in_map_iff.
  exists (Z.to_nat (month_index t - month_index start_date)). split.
  - rewrite Z2Nat.id by lia.
    now replace (month_index start_date + (month_index t - month_index start_date))
      with (month_index t) by lia.
  - apply in_seq. lia.
Qed.

End CalendarFacts.

(** ** The loader and the persist together *)

Lemma first_at_filter (t : Z) (q : Row -> bool) (df : DataFrame) :
  (forall r, ts r = t -> q r = true) ->
  first_at t (List.filter q df) = first_at t df.
Proof.
  intros Hq. unfold first_at. induction df as [|x df IH]; simpl; [reflexivity|].
  destruct (Z.eqb_spec (ts x) t) as [Heq|Hne].
  - rewrite (Hq x Heq). simpl. now rewrite (proj2 (Z.eqb_eq _ _) Heq).
  - destruct (q x); simpl; [|exact IH].
    now rewrite (proj2 (Z.eqb_neq _ _) Hne).
Qed.

Lemma rev_filter {A : Type} (q : A -> bool) (l : list A) :
  rev (List.filter q l) = List.filter q (rev l).
Proof.
  induction l as [|x l IH]; simpl; [reflexivity|].
  rewrite List.filter_app. simpl.
  destruct (q x); simpl; rewrite IH; [reflexivity | now rewrite app_nil_r].
Qed.

(** The rows at a label are all in the group of the month of the label. *)
Lemma last_at_group (r : Row) (df : DataFrame) :
  last_at (ts r) (group (year_month r) df) = last_at (ts r) df.
Proof.
  unfold last_at, group. rewrite rev_filter. apply first_at_filter.
  intros x Hx. apply key_eqb_eq. unfold year_month. now rewrite Hx.
Qed.





(** ** The rows the reconciler discards *)

Lemma before_day_start (t T : Z) :
  t < Time.floor_D T <-> Time.day_number t < Time.day_number T.
Proof.
  unfold Time.floor_D, Time.day_number.
  change Time.NS_PER_DAY with 86400000000000.
  Z.div_mod_to_equations. lia.
Qed.

(** What the reconciler drops from a cache that is not empty is exactly the
    last cached calendar day: a cached row is kept when its day is before
    the day of the latest cached label, and dropped when it is of that
    day. *)
Theorem reconcile_discards_last_day (local_df : DataFrame) (start_date : Z)
    (w : World) (T : Z) (r : Row) :
  index_max local_df = Some T ->
  In r local_df ->
  let kept := reconcile local_df start_date w in
  (In r (concat kept.1.2) <->
   Time.day_number (ts r) < Time.day_number T) /\
  (~ In r (concat kept.1.2) <->
   Time.day_number (ts r) = Time.day_number T).
Proof.
  intros HT Hr kept.
  assert (Hkept : concat kept.1.2 = before (Time.floor_D T) local_df).
  { unfold kept, reconcile. rewrite HT. cbn [fst snd].
    destruct (before (Time.floor_D T) local_df); simpl;
      [reflexivity | now rewrite app_nil_r]. }
  assert (Hle : Time.day_number (ts r) <= Time.day_number T).
  { apply index_max_spec in HT as [_ Hmax].
    unfold Time.day_number. apply Z.div_le_mono; [reflexivity|].
    apply Hmax. now apply In_index. }
  rewrite Hkept, In_before, before_day_start. split.
  - tauto.
  - split.
    + intros H.
      destruct (Z.eq_dec (Time.day_number (ts r)) (Time.day_number T))
        as [E|E]; [exact E|].
      exfalso. apply H. split; [exact Hr | lia].
    + intros H [_ H']. lia.
Qed.

Lemma reconcile_discards_last_day_witness :
  let r := (Sample.day_2025_04_25 + 10 * Sample.hour, Sample.tick_a) in
  (index_max Sample.partial_day =
     Some (Sample.day_2025_04_25 + 12 * Sample.hour) /\
   In r Sample.partial_day) /\
  ~ In r (concat (reconcile Sample.partial_day 0 (Sample.world_at 0 ∅)).1.2).
Proof.
  intros r.
  assert (H1 : index_max Sample.partial_day =
                 Some (Sample.day_2025_04_25 + 12 * Sample.hour))
    by reflexivity.
  assert (H2 : In r Sample.partial_day) by (right; left; reflexivity).
  split; [tauto|].
  apply (proj2 (reconcile_discards_last_day Sample.partial_day 0
                  (Sample.world_at 0 ∅) _ r H1 H2)).
  vm_compute. reflexivity.
Defined.

(** ** Exports and the cache *)

Lemma length_append (a b : string) :
  String.length (a +:+ b) = (String.length a + String.length b)%nat.
Proof.
  induction a as [|x a IH]; [reflexivity|].
  change (String x a +:+ b) with (String x (a +:+ b)).
  cbn [String.length]. now rewrite IH.
Qed.

(** Tails of the same length of two equal strings are equal. *)
Lemma append_tail_eq (a b c d : string) :
  String.length b = String.length d -> a +:+ b = c +:+ d -> b = d.
Proof.
  revert c. induction a as [|x a IH]; intros [|y c] Hlen H.
  - exact H.
  - exfalso. apply (f_equal String.length) in H.
    rewrite !length_append in H. cbn [String.length] in H. lia.
  - exfalso. apply (f_equal String.length) in H.
    rewrite !length_append in H. cbn [String.length] in H. lia.
  - change (String x (a +:+ b) = String y (c +:+ d)) in H.
    injection H as _ H. now apply (IH c).
Qed.

Lemma join_tail (a b : string) : exists pre, Path.join a b = pre +:+ b.
Proof.
  unfold Path.join. destruct (Path.startswith_sep b).
  - now exists EmptyString.
  - destruct (Path.is_empty a || Path.endswith_sep a).
    + now exists a.
    + exists (a +:+ "/"). symmetry. apply append_assoc.
Qed.

Lemma day_range (t : Time.Timestamp) : 1 <= Time.day t <= 31.
Proof.
  assert (Hgen : forall doy, 0 <= doy <= 365 ->
            1 <= doy - (153 * ((5 * doy + 2) / 153) + 2) / 5 + 1 <= 31)
    by (intros doy H; Z.div_mod_to_equations; lia).
  unfold Time.day, Time.civil_from_days. cbv zeta. cbn [snd].
  apply Hgen.
  set (era := (Time.day_number t + 719468) / 146097).
  apply (CalendarFacts.day_of_year_range
           (Time.day_number t + 719468 - era * 146097)).
  unfold era. Z.div_mod_to_equations. lia.
Qed.

Lemma fmt02d_day_digits (d : Z) :
  1 <= d <= 31 -> String.length (Path.fmt02d d) = 2%nat.
Proof.
  intros H.
  assert (E : exists k : nat, d = Z.of_nat k /\ (1 <= k <= 31)%nat)
    by (exists (Z.to_nat d); lia).
  destruct E as (k & -> & Hk). clear H.
  do 32 (destruct k as [|k]; [try lia; reflexivity|]).
  lia.
Qed.

(** The export file name ends in [-DD.csv], a partition path in [/MM.csv]. *)
Lemma output_path_of_tail (output_dir target_symbol tz : string) (w : World) :
  exists pre,
    output_path_of output_dir target_symbol tz w =
    pre +:+ ("-" +:+ Path.fmt02d (Time.day (local_now w)) +:+ ".csv").
Proof.
  unfold output_path_of.
  destruct (join_tail (Path.join output_dir "processed_data")
              (target_symbol +:+ "-" +:+ Path.replace_slash tz +:+ "-"
                 +:+ today_str w +:+ ".csv")) as [pre ->].
  exists (pre +:+ target_symbol +:+ "-" +:+ Path.replace_slash tz +:+ "-"
            +:+ Path.str (Time.year (local_now w)) +:+ "-"
            +:+ Path.fmt02d (Time.month (local_now w))).
  unfold today_str. now rewrite !append_assoc.
Qed.

Lemma output_path_not_partition (output_dir target_symbol tz : string)
    (w : World) (symbol_path : string) (year month : Z) :
  1 <= month <= 12 ->
  output_path_of output_dir target_symbol tz w <>
  save_file_path symbol_path year month.
Proof.
  intros Hm Heq.
  destruct (output_path_of_tail output_dir target_symbol tz w) as [pre Hpre].
  rewrite Hpre, save_file_path_eq in Heq.
  replace (Path.as_dir symbol_path +:+ Path.str year +:+ "/"
             +:+ Path.fmt02d month +:+ ".csv")
    with ((Path.as_dir symbol_path +:+ Path.str year)
            +:+ ("/" +:+ Path.fmt02d month +:+ ".csv")) in Heq
    by now rewrite !append_assoc.
  apply append_tail_eq in Heq.
  - change (String "-" (Path.fmt02d (Time.day (local_now w)) +:+ ".csv") =
            String "/" (Path.fmt02d month +:+ ".csv")) in Heq.
    discriminate.
  - change (S (String.length (Path.fmt02d (Time.day (local_now w)) +:+ ".csv"))
            = S (String.length (Path.fmt02d month +:+ ".csv"))).
    rewrite !length_append, (fmt02d_two_digits month Hm).
    rewrite fmt02d_day_digits by apply day_range. reflexivity.
Qed.

(** An export is never written at the path of a cache partition: whatever
    the output directory, the target symbol, the timezone and the day of
    the run are, the export path differs from the partition path of every
    symbol directory, year and month of the calendar. *)
Theorem export_never_on_partition (output_dir target_symbol tz : string)
    (w : World) (symbol_path : string) (year month : Z) :
  1 <= month <= 12 ->
  output_path_of output_dir target_symbol tz w <>
  save_file_path symbol_path year month.
Proof. apply output_path_not_partition. Qed.

Lemma export_never_on_partition_witness :
  1 <= 4 <= 12 /\
  output_path_of "out" "EURUSD" "Europe/Helsinki"
    (Sample.world_at (Sample.day_2025_04_25 + 30 * Sample.hour) ∅) <>
  save_file_path (symbol_path_of "out" "EUR/USD") 2025 4.
Proof.
  assert (H : 1 <= 4 <= 12) by lia.
  split; [exact H|].
  exact (export_never_on_partition "out" "EURUSD" "Europe/Helsinki"
           (Sample.world_at (Sample.day_2025_04_25 + 30 * Sample.hour) ∅)
           (symbol_path_of "out" "EUR/USD") 2025 4 H).
Defined.

(** What the fetch and the persist of one symbol leave at a path. *)
Lemma fetch_new_written
    (fetch : string -> Interval -> OfferSide -> Z -> Z -> outcome DataFrame)
    (symbol_path dukascopy_symbol : string) (fetch_start_date end_date : Z)
    (dfs : list DataFrame) (w : World) (p : string) (f : file) :
  files (fetch_new fetch symbol_path dukascopy_symbol fetch_start_date
           end_date dfs w).1 !! p = Some f ->
  files w !! p = Some f \/ exists rows, f = Csv UTC rows /\ rows <> [].
Proof.
  unfold fetch_new, _fetch_from_dukascopy.
  destruct (fetch_start_date <? end_date); [|cbn; now left].
  destruct (fetch _ _ _ _ _) as [new_df|e]; [|cbn; now left].
  destruct (negb (empty new_df)); [|cbn; now left].
  match goal with |- context [_save_local_data ?sp ?df ?w0] =>
    assert (Hs : files (_save_local_data sp df w0).1 !! p = Some f ->
                 files w !! p = Some f \/
                 exists rows, f = Csv UTC rows /\ rows <> []);
    [|destruct (_save_local_data sp df w0) as [w3 [[]|e]]; exact Hs]
  end.
  rewrite files_save_local_data. revert p f.
  refine (save_groups_files_inv _ _
            (fun p f => files w !! p = Some f \/
                        exists rows, f = Csv UTC rows /\ rows <> [])
            _ _ _ _).
  - intros y m g tz0 e Hin _. right. eexists. split; [reflexivity|].
    apply merge_partition_nonempty. now apply In_groupby in Hin as [_ H].
  - intros y m g Hin. right. eexists. split; [reflexivity|].
    now apply In_groupby in Hin as [_ H].
  - intros p f H. left. exact H.
Qed.

Lemma process_symbol_partition
    (fetch : string -> Interval -> OfferSide -> Z -> Z -> outcome DataFrame)
    (output_dir tz : string) (start_date end_date : Z) (w : World)
    (symbol : string * string) (symbol_path : string) (year month : Z)
    (f : file) :
  1 <= month <= 12 ->
  files (process_symbol fetch output_dir tz start_date end_date w symbol)
    !! save_file_path symbol_path year month = Some f ->
  files w !! save_file_path symbol_path year month = Some f \/
  exists rows, f = Csv UTC rows /\ rows <> [].
Proof.
  intros Hm. destruct symbol as [dukascopy_symbol target_symbol].
  unfold process_symbol.
  set (wa := print (ProcessingSymbol dukascopy_symbol target_symbol)
                   (print Separator w)).
  pose proof (load_frame (symbol_path_of output_dir dukascopy_symbol)
                start_date end_date wa) as Hload.
  destruct (_load_local_data _ _ _ wa) as [local_df wb]. cbn [snd] in Hload.
  pose proof (reconcile_frame local_df start_date wb) as Hrec.
  destruct (reconcile local_df start_date wb) as [[fetch_start_date dfs] wc].
  cbn [snd] in Hrec.
  assert (Hwc : files wc = files w) by now rewrite Hrec, Hload.
  clear Hrec Hload.
  pose proof (fun f' =>
    fetch_new_written fetch (symbol_path_of output_dir dukascopy_symbol)
      dukascopy_symbol fetch_start_date end_date dfs wc
      (save_file_path symbol_path year month) f') as Hfetch.
  rewrite Hwc in Hfetch.
  destruct (fetch_new _ _ _ _ _ _ _) as [wd [dfs'|]]; cbn [fst] in Hfetch.
  - destruct dfs' as [|d l].
    + cbn [files print with_stdout]. apply Hfetch.
    + rewrite files_export.
      destruct (empty (final_dataset (d :: l) start_date end_date));
        [apply Hfetch|].
      rewrite lookup_insert_ne; [apply Hfetch|].
      now apply output_path_not_partition.
  - apply Hfetch.
Qed.

(** A run leaves at the path of a cache partition, of any symbol directory,
    the file that was there before or a UTC table that is not empty: the
    exports, which are in the timezone of the run, never land on the
    cache. *)
Theorem get_keeps_cache_utc
    (fetch : string -> Interval -> OfferSide -> Z -> Z -> outcome DataFrame)
    (known_timezone : string -> bool) (self : Dukascopy_Tick_Data_Fetcher)
    (months_to_fetch : Z) (symbols : list (string * string))
    (output_dir : string) (broker_timezone_arg : option string) (w : World)
    (symbol_path : string) (year month : Z) (f : file) :
  1 <= month <= 12 ->
  files (get fetch known_timezone self months_to_fetch symbols output_dir
             broker_timezone_arg w).1.2
    !! save_file_path symbol_path year month = Some f ->
  files w !! save_file_path symbol_path year month = Some f \/
  exists rows, f = Csv UTC rows /\ rows <> [].
Proof.
  intros Hm. unfold get.
  set (target_tz_str := match broker_timezone_arg with
                        | Some tz => tz
                        | None => broker_timezone self
                        end).
  destruct (known_timezone target_tz_str); cbn [fst snd]; [|now left].
  change (utc_now (print (UsingBrokerTimezone target_tz_str) w))
    with (utc_now w).
  set (start_date := Time.minus_months (utc_now w) months_to_fetch).
  match goal with |- files (fold_left _ _ ?w0) !! _ = Some f -> _ =>
    change (files w) with (files w0); generalize w0
  end.
  induction symbols as [|symbol rest IH]; intros w0; [now left|].
  simpl. intros H. apply IH in H as [H|H]; [|now right].
  now apply process_symbol_partition in H.
Qed.

Lemma get_keeps_cache_utc_witness :
  let before :=
    Sample.world_at (Sample.day_2025_04_25 + 30 * Sample.hour)
                    Sample.partial_day_cache in
  let after :=
    (get Sample.failing_remote Sample.known __init__ 1 [("EUR/USD", "EURUSD")]
         "out" None before).1.2 in
  let partition := save_file_path (symbol_path_of "out" "EUR/USD") 2025 4 in
  (1 <= 4 <= 12 /\
   files after !! partition = Some (Csv UTC Sample.partial_day)) /\
  (files before !! partition = Some (Csv UTC Sample.partial_day) \/
   exists rows, Csv UTC Sample.partial_day = Csv UTC rows /\ rows <> []).
Proof.
  intros before after partition.
  assert (H1 : 1 <= 4 <= 12) by lia.
  assert (H2 : files after !! partition = Some (Csv UTC Sample.partial_day))
    by (vm_compute; reflexivity).
  split; [tauto|].
  exact (get_keeps_cache_utc Sample.failing_remote Sample.known __init__ 1
           [("EUR/USD", "EURUSD")] "out" None before
           (symbol_path_of "out" "EUR/USD") 2025 4 _ H1 H2).
Defined.
